(** * DataVista: the sales dashboard script [sales_app.py]

    A shallow embedding of the data pipeline of the dashboard: the loader
    [load_data], the sidebar filter stage that builds [filtered_df], and the
    aggregator [calculate_kpis].

    Modelling conventions.
    - A pandas [DataFrame] is a list of column names together with a list of
      typed rows; [df["c"]] raises [KeyError] when ["c"] is not a column.
    - Python and NumPy floats are modelled by exact rationals ([Q]); [round]
      is decimal rounding, half to even.  [NaN] (the mean of no value) is
      [None].
    - The rows of [SalesApp] have every cell filled.  [load_data] checks
      the header of the sheet and not its cells, and a blank cell matters to
      the aggregator: the module [WithBlanks] reads [calculate_kpis] on
      frames whose rows say which of their cells are blank, and returns what
      [SalesApp.calculate_kpis] returns on the frames without blank cell.
    - The [week] column is derived by the loader and never read again; it is
      listed among the columns of a loaded frame and carries no data here.
    - Exceptions are values of [exn]; code that may raise lives in the
      [result] monad. *)

From Stdlib Require Import String Ascii List Sorted Bool Arith ZArith QArith Qround Qabs Lia Lqa.
Import ListNotations.
Local Open Scope string_scope.
Local Open Scope Q_scope.

(* ------------------------------------------------------------------ *)
(** ** Python runtime: exceptions, division, [round] *)

Module Py.

Inductive exn : Type :=
| KeyError (key : string)
| ValueError (msg : string)
| FileNotFoundError
| ZeroDivisionError.

Inductive result (A : Type) : Type :=
| Ok (a : A)
| Raise (e : exn).
Arguments Ok {A} a.
Arguments Raise {A} e.

Definition bind {A B : Type} (m : result A) (k : A -> result B) : result B :=
  match m with
  | Ok a => k a
  | Raise e => Raise e
  end.

(** [a / b] on numbers: a zero divisor raises. *)
Definition truediv (a b : Q) : result Q :=
  if Qeq_bool b 0 then Raise ZeroDivisionError else Ok (a / b).

(** Nearest integer, ties to the even neighbour. *)
Definition rint (x : Q) : Z :=
  let f := Qfloor x in
  match Qcompare (x - inject_Z f) (1 # 2) with
  | Lt => f
  | Gt => (f + 1)%Z
  | Eq => if Z.even f then f else (f + 1)%Z
  end.

Definition pow10 (ndigits : nat) : Q := inject_Z (10 ^ Z.of_nat ndigits).

(** [round(x, ndigits)]; the result is kept in lowest terms. *)
Definition round (x : Q) (ndigits : nat) : Q :=
  Qred (inject_Z (rint (x * pow10 ndigits)) / pow10 ndigits).

(** [len(l)] as a number. *)
Definition of_nat (n : nat) : Q := inject_Z (Z.of_nat n).

(** [s.split(": ")]: the texts between the occurrences of [": "] in [s],
    the occurrences taken from the left. *)
Fixpoint split_colon_space (s : string) : list string :=
  match s with
  | EmptyString => [EmptyString]
  | String c t =>
      let keep :=
        match split_colon_space t with
        | part :: parts => String c part :: parts
        | [] => [String c EmptyString]
        end in
      match t with
      | String c' rest =>
          if (Ascii.eqb c ":" && Ascii.eqb c' " ")%bool
          then EmptyString :: split_colon_space rest
          else keep
      | EmptyString => keep
      end
  end.

(** A [dict] with text keys, as its items in insertion order. *)
Definition dict (V : Type) : Type := list (string * V).

(** [d[k] = v]: a known key keeps its place and takes the new value, a new
    key goes last. *)
Fixpoint dict_setitem {V : Type} (k : string) (v : V) (d : dict V) : dict V :=
  match d with
  | [] => [(k, v)]
  | (k', v') :: t =>
      if String.eqb k k' then (k', v) :: t else (k', v') :: dict_setitem k v t
  end.

(** [d.get(k)] *)
Fixpoint dict_get {V : Type} (k : string) (d : dict V) : option V :=
  match d with
  | [] => None
  | (k', v') :: t => if String.eqb k k' then Some v' else dict_get k t
  end.

End Py.

Import Py.

Notation "x <- m ;; k" := (Py.bind m (fun x => k))
  (at level 61, m at next level, right associativity).

(* ------------------------------------------------------------------ *)
(** ** The pandas operations the script uses, on columns as lists *)

Module Pandas.

Section Series.
Context {K : Type}.
Variable eqb : K -> K -> bool.

(** [x in values] *)
Definition mem (x : K) (values : list K) : bool := existsb (eqb x) values.

(** [Series.isin(values)] *)
Definition isin (s : list K) (values : list K) : list bool :=
  map (fun x => mem x values) s.

(** [Series.unique()]: distinct values in order of first appearance. *)
Fixpoint unique_from (seen : list K) (s : list K) : list K :=
  match s with
  | [] => []
  | x :: t =>
      if mem x seen then unique_from seen t
      else x :: unique_from (x :: seen) t
  end.
Definition unique (s : list K) : list K := unique_from [] s.

(** [Series.duplicated()] (keep='first'): a row is flagged when its value
    was met on an earlier row. *)
Fixpoint duplicated_from (seen : list K) (s : list K) : list bool :=
  match s with
  | [] => []
  | x :: t => mem x seen :: duplicated_from (x :: seen) t
  end.
Definition duplicated (s : list K) : list bool := duplicated_from [] s.
End Series.

(** [.sum()] of a boolean column: the number of [True]. *)
Definition sum_bool (s : list bool) : nat := length (filter (fun b => b) s).

(** [.sum()] of a numeric column; [0] for no row. *)
Definition sum (s : list Q) : Q := fold_left Qplus s 0.

(** [.mean()] of a numeric column; [NaN] for no row. *)
Definition mean (s : list Q) : option Q :=
  match s with
  | [] => None
  | _ => Some (sum s / Py.of_nat (length s))
  end.

Section GroupBy.
Context {K : Type}.
Variable cmp : K -> K -> comparison.

(** Adds [v] to the group of key [k]; the groups stay in ascending key
    order, as [groupby] (sort=True) returns them. *)
Fixpoint upsert (k : K) (v : Q) (groups : list (K * Q)) : list (K * Q) :=
  match groups with
  | [] => [(k, v)]
  | (k', v') :: t =>
      match cmp k k' with
      | Lt => (k, v) :: groups
      | Eq => (k', v' + v) :: t
      | Gt => (k', v') :: upsert k v t
      end
  end.

(** [df.groupby(key)[value].sum()] on the two columns zipped row by row. *)
Definition groupby_sum (keyed : list (K * Q)) : list (K * Q) :=
  fold_left (fun groups kv => upsert (fst kv) (snd kv) groups) keyed [].

(** [.round(ndigits)] of the grouped series. *)
Definition round_values (ndigits : nat) (groups : list (K * Q)) : list (K * Q) :=
  map (fun kv => (fst kv, Py.round (snd kv) ndigits)) groups.
End GroupBy.

(** [dict.values()] *)
Definition values {K : Type} (d : list (K * Q)) : list Q := map snd d.

(** *** Missing values: a cell of a column is [None] when it is [NaN] *)

(** [Series.dropna()] *)
Fixpoint dropna {A : Type} (s : list (option A)) : list A :=
  match s with
  | [] => []
  | Some x :: t => x :: dropna t
  | None :: t => dropna t
  end.

(** Equality of cells as [unique] and [duplicated] see it: a missing value
    is one more value, equal to itself. *)
Definition cell_eqb {A : Type} (eqb : A -> A -> bool) (a b : option A) : bool :=
  match a, b with
  | Some x, Some y => eqb x y
  | None, None => true
  | _, _ => false
  end.

(** What [groupby] (dropna=True) and the [sum] of the groups (skipna) keep
    of the keys zipped with the amounts: a row without key is left out, and
    a missing amount adds nothing to its group. *)
Fixpoint keyed_dropna {K : Type} (keyed : list (option K * option Q)) : list (K * Q) :=
  match keyed with
  | [] => []
  | (Some k, Some v) :: t => (k, v) :: keyed_dropna t
  | (Some k, None) :: t => (k, 0) :: keyed_dropna t
  | (None, _) :: t => keyed_dropna t
  end.

End Pandas.

Import Pandas.

(* ------------------------------------------------------------------ *)
(** ** The script *)

Module SalesApp.

(** [datetime.date] and the monthly [Period] of [dt.to_period("M")]. *)
Record datetime_date : Type := mk_date { d_year : Z; d_month : Z; d_day : Z }.
Record Period : Type := mk_period { p_year : Z; p_month : Z }.

Definition date_compare (a b : datetime_date) : comparison :=
  match Z.compare (d_year a) (d_year b) with
  | Eq => match Z.compare (d_month a) (d_month b) with
          | Eq => Z.compare (d_day a) (d_day b)
          | c => c
          end
  | c => c
  end.

(** [a <= b] on dates *)
Definition date_le (a b : datetime_date) : bool :=
  match date_compare a b with Gt => false | _ => true end.

Definition period_compare (a b : Period) : comparison :=
  match Z.compare (p_year a) (p_year b) with
  | Eq => Z.compare (p_month a) (p_month b)
  | c => c
  end.

Definition to_period_M (d : datetime_date) : Period :=
  {| p_year := d_year d; p_month := d_month d |}.

(** One row of the sheet, a cell per required column. *)
Record SheetRow : Type := mk_sheet_row {
  Invoice_ID : string;
  Branch : string;
  City : string;
  Customer_type : string;
  Gender : string;
  Product_line : string;
  Unit_price : Q;
  Quantity : Z;
  Tax_5 : Q;
  Total : Q;
  Date : string;
  Time : string;
  Payment : string;
  cogs : Q;
  gross_margin_percentage : Q;
  gross_income : Q;
  Rating : Q
}.

(** One row of the loaded frame: the sheet's cells and the derived ones. *)
Record Row : Type := mk_row {
  cells : SheetRow;
  hour : Z;
  date : datetime_date;
  month : Period
}.

Record Sheet : Type := mk_sheet {
  sheet_columns : list string;
  sheet_rows : list SheetRow
}.

(** The file [sales_data.xlsx]: absent, or a workbook of named sheets. *)
Definition Workbook : Type := list (string * Sheet).

Record DataFrame : Type := mk_frame {
  columns : list string;
  rows : list Row
}.

(** [pd.DataFrame()] *)
Definition DataFrame_new : DataFrame := {| columns := []; rows := [] |}.

(** [len(df)] *)
Definition len (df : DataFrame) : nat := length (rows df).

(** [df.empty]: no row or no column. *)
Definition empty (df : DataFrame) : bool :=
  match columns df, rows df with
  | [], _ => true
  | _, [] => true
  | _, _ => false
  end.

(** [df[col]], with the cell reader that belongs to [col]. *)
Definition getitem {A : Type} (df : DataFrame) (col : string) (cell : Row -> A)
  : result (list A) :=
  if mem String.eqb col (columns df) then Ok (map cell (rows df))
  else Raise (KeyError col).

(** [m1 & m2] on boolean columns *)
Fixpoint mask_and (m1 m2 : list bool) : list bool :=
  match m1, m2 with
  | b1 :: t1, b2 :: t2 => (b1 && b2) :: mask_and t1 t2
  | _, _ => []
  end.

Fixpoint take_mask {A : Type} (l : list A) (mask : list bool) : list A :=
  match l, mask with
  | x :: t, b :: m => if b then x :: take_mask t m else take_mask t m
  | _, _ => []
  end.

(** [df[mask]] *)
Definition boolean_index (df : DataFrame) (mask : list bool) : DataFrame :=
  {| columns := columns df; rows := take_mask (rows df) mask |}.

Definition required_columns : list string :=
  [ "Invoice ID"; "Branch"; "City"; "Customer_type"; "Gender"; "Product line";
    "Unit price"; "Quantity"; "Tax 5%"; "Total"; "Date"; "Time"; "Payment";
    "cogs"; "gross margin percentage"; "gross income"; "Rating" ].

(** The columns of a frame that [load_data] has built. *)
Definition loaded_columns : list string :=
  (required_columns ++ ["hour"; "date"; "week"; "month"])%list.

(** [pd.read_excel(io, sheet_name=..., skiprows=0, nrows=...)] *)
Definition read_excel (io : option Workbook) (sheet_name : string) (nrows : nat)
  : result Sheet :=
  match io with
  | None => Raise FileNotFoundError
  | Some book =>
      match find (fun entry => String.eqb (fst entry) sheet_name) book with
      | None => Raise (ValueError "Worksheet not found")
      | Some (_, sh) =>
          Ok {| sheet_columns := sheet_columns sh;
                sheet_rows := firstn nrows (sheet_rows sh) |}
      end
  end.

Fixpoint traverse {A B : Type} (f : A -> result B) (l : list A) : result (list B) :=
  match l with
  | [] => Ok []
  | x :: t => y <- f x ;; ys <- traverse f t ;; Ok (y :: ys)
  end.

Section Loader.
(** The two parsers of pandas the loader calls:
    [pd.to_datetime(s, format="%H:%M:%S")], read as (hour, minute, second),
    and [pd.to_datetime(s)] followed by [.dt.date].  [None] is the
    [ValueError] of a text that does not parse. *)
Variable to_datetime_hms : string -> option (Z * Z * Z).
Variable to_datetime_date : string -> option datetime_date.

(** The derived cells of one row (lines 31 to 34).  The script derives
    column after column; a text that does not parse raises the same
    [ValueError] in either order, and [load_data] catches it. *)
Definition derive (r : SheetRow) : result Row :=
  match to_datetime_hms (Time r) with
  | None => Raise (ValueError "time data does not match format")
  | Some (h, _, _) =>
      match to_datetime_date (Date r) with
      | None => Raise (ValueError "unknown datetime string format")
      | Some d => Ok {| cells := r; hour := h; date := d; month := to_period_M d |}
      end
  end.

(** The [try] block of [load_data]; the [else] branch is the early
    [return] of the column check.  The messages of [st.error] go to the
    page and are not part of the returned value. *)
Definition load_data_try (io : option Workbook) : result DataFrame :=
  df <- read_excel io "Sales" 1000 ;;
  if forallb (fun col => mem String.eqb col (sheet_columns df)) required_columns
  then
    loaded <- traverse derive (sheet_rows df) ;;
    Ok {| columns := loaded_columns; rows := loaded |}
  else Ok DataFrame_new.

(** [load_data]: every exception of the [try] block is caught and turned
    into [pd.DataFrame()]. *)
Definition load_data (io : option Workbook) : DataFrame :=
  match load_data_try io with
  | Ok df => df
  | Raise _ => DataFrame_new
  end.
End Loader.

(** The sidebar: what the four widgets return on one run of the script. *)
Record Sidebar : Type := mk_sidebar {
  date_range : list datetime_date;
  city_filter : list string;
  customer_type_filter : list string;
  gender_filter : list string
}.

(** Lines 74 to 79: the date range filter.  A selection of one date (or of
    more than two) fails at the unpacking [start_date, end_date = date_range]. *)
Definition filter_date_range (df : DataFrame) (range : list datetime_date)
  : result DataFrame :=
  match range with
  | [] => Ok df
  | [start_date; end_date] =>
      lower <- getitem df "date" date ;;
      upper <- getitem df "date" date ;;
      Ok (boolean_index df
            (mask_and (map (fun d => date_le start_date d) lower)
                      (map (fun d => date_le d end_date) upper)))
  | _ => Raise (ValueError "not enough values to unpack")
  end.

(** The arguments of one [st.sidebar.multiselect]: [options] is evaluated
    first, then [default], which is guarded by [df.empty]. *)
Definition multiselect_args (df : DataFrame) (col : string) (cell : Row -> string)
  : result (list string * list string) :=
  options <- getitem df col cell ;;
  default <- (if negb (empty df)
              then s <- getitem df col cell ;; Ok (unique String.eqb s)
              else Ok []) ;;
  Ok (unique String.eqb options, default).

(** Lines 74 to 101: from the loaded frame and the widgets to [filtered_df]. *)
Definition filtered_df (df : DataFrame) (ui : Sidebar) : result DataFrame :=
  by_date <- filter_date_range df (date_range ui) ;;
  _ <- multiselect_args df "City" (fun r => City (cells r)) ;;
  _ <- multiselect_args df "Customer_type" (fun r => Customer_type (cells r)) ;;
  _ <- multiselect_args df "Gender" (fun r => Gender (cells r)) ;;
  city <- getitem by_date "City" (fun r => City (cells r)) ;;
  customer_type <- getitem by_date "Customer_type" (fun r => Customer_type (cells r)) ;;
  gender <- getitem by_date "Gender" (fun r => Gender (cells r)) ;;
  Ok (boolean_index by_date
        (mask_and (mask_and (isin String.eqb city (city_filter ui))
                            (isin String.eqb customer_type (customer_type_filter ui)))
                  (isin String.eqb gender (gender_filter ui)))).

(** The sidebar of a page nobody has touched: no date range, and every
    multiselect at its [default]. *)
Definition untouched (df : DataFrame) : result Sidebar :=
  city <- multiselect_args df "City" (fun r => City (cells r)) ;;
  customer_type <- multiselect_args df "Customer_type" (fun r => Customer_type (cells r)) ;;
  gender <- multiselect_args df "Gender" (fun r => Gender (cells r)) ;;
  Ok {| date_range := [];
        city_filter := snd city;
        customer_type_filter := snd customer_type;
        gender_filter := snd gender |}.

(** [df.groupby(col)["Total"].sum().round(2).to_dict()] *)
Definition sales_by {K : Type} (cmp : K -> K -> comparison)
  (df : DataFrame) (col : string) (cell : Row -> K) : result (list (K * Q)) :=
  keys <- getitem df col cell ;;
  totals <- getitem df "Total" (fun r => Total (cells r)) ;;
  Ok (round_values 2 (groupby_sum cmp (combine keys totals))).

(** Line 119: [df["Invoice ID"].duplicated().sum()] *)
Definition repeat_customers_of (df : DataFrame) : result nat :=
  ids <- getitem df "Invoice ID" (fun r => Invoice_ID (cells r)) ;;
  Ok (sum_bool (duplicated String.eqb ids)).

(** Line 108: [len(df["Invoice ID"].unique())] *)
Definition total_customers_of (df : DataFrame) : result nat :=
  ids <- getitem df "Invoice ID" (fun r => Invoice_ID (cells r)) ;;
  Ok (length (unique String.eqb ids)).

Record KPIs : Type := mk_kpis {
  total_sales : Q;
  total_transactions : nat;
  avg_sale_per_transaction : Q;
  avg_rating : option Q;
  total_customers : nat;
  product_sales : list (string * Q);
  hour_sales : list (Z * Q);
  monthly_sales : list (Period * Q);
  customer_type_sales : list (string * Q);
  gender_sales : list (string * Q);
  city_sales : list (string * Q);
  repeat_customer_rate : Q;
  clv : Q
}.

Definition avg_customer_lifespan : Q := 5.

Definition calculate_kpis (df : DataFrame) : result KPIs :=
  total <- getitem df "Total" (fun r => Total (cells r)) ;;
  let total_sales := Py.round (sum total) 2 in
  let total_transactions := len df in
  avg_sale_per_transaction <-
    (if (0 <? total_transactions)%nat
     then q <- truediv total_sales (Py.of_nat total_transactions) ;; Ok (Py.round q 2)
     else Ok 0) ;;
  rating <- getitem df "Rating" (fun r => Rating (cells r)) ;;
  let avg_rating := option_map (fun m => Py.round m 1) (mean rating) in
  total_customers <- total_customers_of df ;;
  product_sales <- sales_by String.compare df "Product line" (fun r => Product_line (cells r)) ;;
  hour_sales <- sales_by Z.compare df "hour" hour ;;
  monthly_sales <- sales_by period_compare df "month" month ;;
  customer_type_sales <- sales_by String.compare df "Customer_type" (fun r => Customer_type (cells r)) ;;
  gender_sales <- sales_by String.compare df "Gender" (fun r => Gender (cells r)) ;;
  city_sales <- sales_by String.compare df "City" (fun r => City (cells r)) ;;
  repeat_customers <- repeat_customers_of df ;;
  repeat_customer_rate <-
    (if (0 <? total_customers)%nat
     then q <- truediv (Py.of_nat repeat_customers) (Py.of_nat total_customers) ;;
          Ok (Py.round (q * 100) 2)
     else Ok 0) ;;
  avg_purchase_value <-
    (if (0 <? total_customers)%nat
     then truediv total_sales (Py.of_nat total_customers) else Ok 0) ;;
  purchase_frequency <-
    (if (0 <? total_customers)%nat
     then truediv (Py.of_nat total_transactions) (Py.of_nat total_customers) else Ok 0) ;;
  let avg_customer_value := avg_purchase_value * purchase_frequency in
  let clv := Py.round (avg_customer_value * avg_customer_lifespan) 2 in
  Ok {| total_sales := total_sales;
        total_transactions := total_transactions;
        avg_sale_per_transaction := avg_sale_per_transaction;
        avg_rating := avg_rating;
        total_customers := total_customers;
        product_sales := product_sales;
        hour_sales := hour_sales;
        monthly_sales := monthly_sales;
        customer_type_sales := customer_type_sales;
        gender_sales := gender_sales;
        city_sales := city_sales;
        repeat_customer_rate := repeat_customer_rate;
        clv := clv |}.

(** Line 145: [filtered_kpi_data = calculate_kpis(filtered_df)] *)
Definition filtered_kpi_data (df : DataFrame) (ui : Sidebar) : result KPIs :=
  view <- filtered_df df ui ;;
  calculate_kpis view.

Section KpiFile.
(** The builtins [load_kpi_data] calls on a line: [str.strip()], and
    [float(text)] into the floats of Python, [None] being its
    [ValueError]. *)
Variable strip : string -> string.
Variable float_value : Type.
Variable float : string -> option float_value.

(** What [load_kpi_data] returns: the two mappings of its [dict]. *)
Record KpiData : Type := mk_kpi_data {
  kpi_product_sales : dict float_value;
  kpi_hour_sales : dict float_value
}.

(** The body of the loop of lines 57 to 59, on one line of the file. *)
Definition read_line (product_sales : dict float_value) (line : string)
  : result (dict float_value) :=
  match split_colon_space (strip line) with
  | [product_line; sales] =>
      match float sales with
      | Some x => Ok (dict_setitem product_line x product_sales)
      | None => Raise (ValueError "could not convert string to float")
      end
  | _ => Raise (ValueError "wrong number of values to unpack")
  end.

Fixpoint read_lines (product_sales : dict float_value) (file : list string)
  : result (dict float_value) :=
  match file with
  | [] => Ok product_sales
  | line :: rest =>
      filled <- read_line product_sales line ;;
      read_lines filled rest
  end.

(** [load_kpi_data], on the lines of [product_sales.txt] ([None] when the
    file is absent: its [FileNotFoundError] is the only exception caught). *)
Definition load_kpi_data (file : option (list string)) : result KpiData :=
  product_sales <-
    match file with
    | Some lines => read_lines [] lines
    | None => Ok []
    end ;;
  Ok {| kpi_product_sales := product_sales; kpi_hour_sales := [] |}.
End KpiFile.

End SalesApp.

Import SalesApp.

(* ------------------------------------------------------------------ *)
(** ** The aggregator on frames with blank cells

    [load_data] checks the header of the sheet and not its cells: a blank
    cell of the sheet is a [NaN] of the frame.  The frames of this module
    say, row by row, which cells are blank, and [calculate_kpis] is read on
    them with what pandas does of a missing value: [sum] and [mean] skip it,
    [groupby] leaves out the rows whose key is missing, [unique] and
    [duplicated] take it for one more value. *)

Module WithBlanks.

(** A row and the columns in which its cell is blank; the value that
    [filled] stores for such a column is never read. *)
Record BlankRow : Type := mk_blank_row {
  filled : Row;
  blank : list string
}.

Record DataFrame : Type := mk_frame {
  columns : list string;
  rows : list BlankRow
}.

(** [len(df)] *)
Definition len (df : DataFrame) : nat := length (rows df).

(** The cell of the row in the column [col]. *)
Definition cell_of {A : Type} (col : string) (cell : Row -> A) (r : BlankRow)
  : option A :=
  if mem String.eqb col (blank r) then None else Some (cell (filled r)).

(** [df[col]] *)
Definition getitem {A : Type} (df : DataFrame) (col : string) (cell : Row -> A)
  : result (list (option A)) :=
  if mem String.eqb col (columns df) then Ok (map (cell_of col cell) (rows df))
  else Raise (KeyError col).

(** [df.groupby(col)["Total"].sum().round(2).to_dict()] *)
Definition sales_by {K : Type} (cmp : K -> K -> comparison)
  (df : DataFrame) (col : string) (cell : Row -> K) : result (list (K * Q)) :=
  keys <- getitem df col cell ;;
  totals <- getitem df "Total" (fun r => Total (cells r)) ;;
  Ok (round_values 2 (groupby_sum cmp (keyed_dropna (combine keys totals)))).

(** Line 119: [df["Invoice ID"].duplicated().sum()] *)
Definition repeat_customers_of (df : DataFrame) : result nat :=
  ids <- getitem df "Invoice ID" (fun r => Invoice_ID (cells r)) ;;
  Ok (sum_bool (duplicated (cell_eqb String.eqb) ids)).

(** Line 108: [len(df["Invoice ID"].unique())] *)
Definition total_customers_of (df : DataFrame) : result nat :=
  ids <- getitem df "Invoice ID" (fun r => Invoice_ID (cells r)) ;;
  Ok (length (unique (cell_eqb String.eqb) ids)).

Definition calculate_kpis (df : DataFrame) : result KPIs :=
  total <- getitem df "Total" (fun r => Total (cells r)) ;;
  let total_sales := Py.round (sum (dropna total)) 2 in
  let total_transactions := len df in
  avg_sale_per_transaction <-
    (if (0 <? total_transactions)%nat
     then q <- truediv total_sales (Py.of_nat total_transactions) ;; Ok (Py.round q 2)
     else Ok 0) ;;
  rating <- getitem df "Rating" (fun r => Rating (cells r)) ;;
  let avg_rating := option_map (fun m => Py.round m 1) (mean (dropna rating)) in
  total_customers <- total_customers_of df ;;
  product_sales <- sales_by String.compare df "Product line" (fun r => Product_line (cells r)) ;;
  hour_sales <- sales_by Z.compare df "hour" hour ;;
  monthly_sales <- sales_by period_compare df "month" month ;;
  customer_type_sales <- sales_by String.compare df "Customer_type" (fun r => Customer_type (cells r)) ;;
  gender_sales <- sales_by String.compare df "Gender" (fun r => Gender (cells r)) ;;
  city_sales <- sales_by String.compare df "City" (fun r => City (cells r)) ;;
  repeat_customers <- repeat_customers_of df ;;
  repeat_customer_rate <-
    (if (0 <? total_customers)%nat
     then q <- truediv (Py.of_nat repeat_customers) (Py.of_nat total_customers) ;;
          Ok (Py.round (q * 100) 2)
     else Ok 0) ;;
  avg_purchase_value <-
    (if (0 <? total_customers)%nat
     then truediv total_sales (Py.of_nat total_customers) else Ok 0) ;;
  purchase_frequency <-
    (if (0 <? total_customers)%nat
     then truediv (Py.of_nat total_transactions) (Py.of_nat total_customers) else Ok 0) ;;
  let avg_customer_value := avg_purchase_value * purchase_frequency in
  let clv := Py.round (avg_customer_value * avg_customer_lifespan) 2 in
  Ok {| total_sales := total_sales;
        total_transactions := total_transactions;
        avg_sale_per_transaction := avg_sale_per_transaction;
        avg_rating := avg_rating;
        total_customers := total_customers;
        product_sales := product_sales;
        hour_sales := hour_sales;
        monthly_sales := monthly_sales;
        customer_type_sales := customer_type_sales;
        gender_sales := gender_sales;
        city_sales := city_sales;
        repeat_customer_rate := repeat_customer_rate;
        clv := clv |}.

(** A frame of [SalesApp], in which no cell is blank. *)
Definition of_frame (df : SalesApp.DataFrame) : DataFrame :=
  {| columns := SalesApp.columns df;
     rows := map (fun r => {| filled := r; blank := [] |}) (SalesApp.rows df) |}.

End WithBlanks.

(* ------------------------------------------------------------------ *)
(** ** Vocabulary of the properties *)

(** The frame has every column of [cols]. *)
Definition has_columns (cols : list string) (df : DataFrame) : bool :=
  forallb (fun col => mem String.eqb col (columns df)) cols.

(** The frame has the columns of a dataset that [load_data] has built. *)
Definition loaded (df : DataFrame) : Prop := has_columns loaded_columns df = true.

(** A grouped mapping agrees with a rounded total up to half a cent for each
    rounded figure involved: one per group, and one for the total. *)
Definition within_rounding {K : Type} (d : list (K * Q)) (total : Q) : Prop :=
  Qabs (sum (values d) - total) <= (Py.of_nat (length d) + 1) * (1 # 200).

(** The invoice id of position [i] occurs at a strictly earlier position. *)
Definition seen_earlier (ids : list string) (i : nat) : bool :=
  mem String.eqb (nth i ids "") (firstn i ids).

(** Number of positions whose invoice id occurs at an earlier position. *)
Definition earlier_count (ids : list string) : nat :=
  length (filter (seen_earlier ids) (seq 0 (length ids))).

(** [s] without its leading run of [x]. *)
Fixpoint drop_run (x : string) (s : list string) : list string :=
  match s with
  | [] => []
  | y :: t => if String.eqb x y then drop_run x t else s
  end.

(** The occurrences of every id are contiguous: once the run of an id has
    ended, the id does not come back. *)
Fixpoint contiguous (ids : list string) : bool :=
  match ids with
  | [] => true
  | x :: t => negb (mem String.eqb x (drop_run x t)) && contiguous t
  end.

(** The time and the date of a sheet row parse. *)
Definition parses (to_datetime_hms : string -> option (Z * Z * Z))
  (to_datetime_date : string -> option datetime_date) (r : SheetRow) : bool :=
  match to_datetime_hms (Time r), to_datetime_date (Date r) with
  | Some _, Some _ => true
  | _, _ => false
  end.

(** The date range widget returned no date or two dates. *)
Definition range_ok (ui : Sidebar) : bool :=
  match date_range ui with
  | [] | [_; _] => true
  | _ => false
  end.

(** The metrics of a result that have a zero default are at it, the mean
    rating is [NaN] and no group is present. *)
Definition at_defaults (k : KPIs) : Prop :=
  total_sales k = 0 /\ total_transactions k = 0%nat /\
  avg_sale_per_transaction k = 0 /\ avg_rating k = None /\
  total_customers k = 0%nat /\
  product_sales k = [] /\ hour_sales k = [] /\ monthly_sales k = [] /\
  customer_type_sales k = [] /\ gender_sales k = [] /\ city_sales k = [] /\
  repeat_customer_rate k = 0 /\ clv k = 0.

(** A three-way comparison that decides equality and orders the keys. *)
Record key_order {K : Type} (cmp : K -> K -> comparison) : Prop := mk_key_order {
  cmp_eq : forall a b, cmp a b = Eq <-> a = b;
  cmp_antisym : forall a b, cmp b a = CompOpp (cmp a b);
  cmp_lt_trans : forall a b c, cmp a b = Lt -> cmp b c = Lt -> cmp a c = Lt
}.

(** The rows whose cell under [cell] is the key [k], in their order. *)
Definition rows_with {K : Type} (cmp : K -> K -> comparison) (cell : Row -> K)
  (k : K) (rs : list Row) : list Row :=
  filter (fun r => match cmp (cell r) k with Eq => true | _ => false end) rs.

(** The keys of the mapping [d] are the values that the column [cell] takes
    on the rows, each once, in strictly ascending order. *)
Definition keys_observed {K : Type} (cmp : K -> K -> comparison) (cell : Row -> K)
  (rs : list Row) (d : list (K * Q)) : Prop :=
  (forall k, In k (map fst d) <-> In k (map cell rs)) /\
  StronglySorted (fun a b => cmp a b = Lt) (map fst d) /\
  NoDup (map fst d).

(** Each entry of the mapping [d] holds the sum of [Total] over the rows of
    its key, rounded to 2 decimals. *)
Definition values_summed {K : Type} (cmp : K -> K -> comparison) (cell : Row -> K)
  (rs : list Row) (d : list (K * Q)) : Prop :=
  forall k v, In (k, v) d ->
    v = Py.round (sum (map (fun r => Total (cells r)) (rows_with cmp cell k rs))) 2.

(** What the traversal of [groupby] holds after the keyed amounts [seen]:
    ascending keys, the keys met so far, and for each key the sum of its
    amounts. *)
Definition grouping_of {K : Type} (cmp : K -> K -> comparison)
  (seen groups : list (K * Q)) : Prop :=
  StronglySorted (fun a b => cmp a b = Lt) (map fst groups) /\
  (forall k, In k (map fst groups) <-> In k (map fst seen)) /\
  (forall k v, In (k, v) groups ->
     v == sum (map snd (filter (fun kv => match cmp (fst kv) k with
                                          | Eq => true
                                          | _ => false
                                          end) seen))).

(** The date passes the date range widget: any date when no range is set,
    the dates between the two bounds, ends included, otherwise. *)
Definition in_date_range (range : list datetime_date) (d : datetime_date) : bool :=
  match range with
  | [lower; upper] => date_le lower d && date_le d upper
  | _ => true
  end.

(** The row passes the four filters of the sidebar. *)
Definition selected (ui : Sidebar) (r : Row) : bool :=
  in_date_range (date_range ui) (date r)
  && mem String.eqb (City (cells r)) (city_filter ui)
  && mem String.eqb (Customer_type (cells r)) (customer_type_filter ui)
  && mem String.eqb (Gender (cells r)) (gender_filter ui).

(** The text holds [": "] somewhere. *)
Definition has_colon_space (s : string) : Prop :=
  exists before after, s = (before ++ ": " ++ after)%string.

(** The product and the amount that a line of the KPI file yields, when it
    has the two parts and the amount reads as a float. *)
Definition line_entry {F : Type} (strip : string -> string)
  (float : string -> option F) (line : string) : option (string * F) :=
  match split_colon_space (strip line) with
  | [product_line; sales] =>
      match float sales with
      | Some x => Some (product_line, x)
      | None => None
      end
  | _ => None
  end.

(** The amount of the last of the [entries] for the product [name]. *)
Definition last_amount {F : Type} (name : string) (entries : list (string * F))
  : option F :=
  option_map snd (find (fun e => String.eqb name (fst e)) (rev entries)).

Definition digit_of (c : ascii) : option Z :=
  let n := Z.of_nat (nat_of_ascii c) in
  if ((48 <=? n) && (n <=? 57))%Z then Some (n - 48)%Z else None.

(** Stand-ins for the two builtins in the examples: a [strip] that drops
    one final newline, and a [float] that reads one or two digits. *)
Definition fixture_strip (line : string) : string :=
  match rev (list_ascii_of_string line) with
  | c :: before =>
      if Ascii.eqb c "010" then string_of_list_ascii (rev before) else line
  | [] => line
  end.

Definition fixture_float (s : string) : option Z :=
  match s with
  | String a EmptyString => digit_of a
  | String a (String b EmptyString) =>
      match digit_of a, digit_of b with
      | Some x, Some y => Some (10 * x + y)%Z
      | _, _ => None
      end
  | _ => None
  end.

(** The frame with blank cells has the columns of a loaded dataset. *)
Definition blank_loaded (df : WithBlanks.DataFrame) : Prop :=
  forallb (fun col => mem String.eqb col (WithBlanks.columns df)) loaded_columns = true.

(** No row of the frame has a blank cell in the column [col]. *)
Definition column_filled (df : WithBlanks.DataFrame) (col : string) : Prop :=
  forall r, In r (WithBlanks.rows df) -> mem String.eqb col (WithBlanks.blank r) = false.

(** The sum of [Total], rounded to 2 decimals, over the rows whose cell in
    the column [col] is filled; a blank [Total] adds nothing. *)
Definition filled_total (df : WithBlanks.DataFrame) (col : string) : Q :=
  Py.round
    (sum (dropna (map (WithBlanks.cell_of "Total" (fun r => Total (cells r)))
                    (filter (fun r => negb (mem String.eqb col (WithBlanks.blank r)))
                       (WithBlanks.rows df))))) 2.

(** The mapping [d], grouped by the column [col], adds up within rounding to
    the total of the rows that have a key, and to [total_sales] when no row
    lacks its key. *)
Definition sums_to_filled_total {K : Type} (df : WithBlanks.DataFrame) (col : string)
  (k : KPIs) (d : list (K * Q)) : Prop :=
  within_rounding d (filled_total df col) /\
  (column_filled df col -> within_rounding d (total_sales k)).

(** Fixtures: a row from the seven cells the scenarios fix; the other cells
    hold arbitrary values.  The two parsers read ["HH:MM:SS"] and
    ["YYYY-MM-DD"] with exactly these widths. *)
Definition fixture_row (total : Q) (day : string) (d : datetime_date)
  (time : string) (h : Z)
  (city customer_type gender invoice_id : string) : Row :=
  {| cells := {| Invoice_ID := invoice_id; Branch := "A"; City := city;
                 Customer_type := customer_type; Gender := gender;
                 Product_line := "Health and beauty"; Unit_price := 1;
                 Quantity := 1; Tax_5 := 0; Total := total;
                 Date := day; Time := time; Payment := "Cash";
                 cogs := total; gross_margin_percentage := 0;
                 gross_income := 0; Rating := 7 |};
     hour := h; date := d; month := to_period_M d |}.

Definition digit (c : ascii) : option Z :=
  let n := Z.of_nat (nat_of_ascii c) in
  if ((48 <=? n) && (n <=? 57))%Z then Some (n - 48)%Z else None.

Definition two_digits (a b : ascii) : option Z :=
  match digit a, digit b with
  | Some x, Some y => Some (10 * x + y)%Z
  | _, _ => None
  end.

Definition fixture_hms (s : string) : option (Z * Z * Z) :=
  match s with
  | String h1 (String h2 (String ":" (String m1 (String m2
      (String ":" (String s1 (String s2 EmptyString))))))) =>
      match two_digits h1 h2, two_digits m1 m2, two_digits s1 s2 with
      | Some h, Some m, Some sec =>
          if ((h <? 24) && (m <? 60) && (sec <? 60))%Z then Some (h, m, sec) else None
      | _, _, _ => None
      end
  | _ => None
  end.

Definition fixture_date (s : string) : option datetime_date :=
  match s with
  | String y1 (String y2 (String y3 (String y4 (String "-" (String m1 (String m2
      (String "-" (String d1 (String d2 EmptyString))))))))) =>
      match two_digits y1 y2, two_digits y3 y4, two_digits m1 m2, two_digits d1 d2 with
      | Some c, Some y, Some m, Some d =>
          if ((1 <=? m) && (m <=? 12) && (1 <=? d) && (d <=? 31))%Z
          then Some {| d_year := 100 * c + y; d_month := m; d_day := d |} else None
      | _, _, _, _ => None
      end
  | _ => None
  end.

Definition fixture_sheet_row (invoice_id : string) : SheetRow :=
  cells (fixture_row 10 "2024-01-01" (mk_date 2024 1 1) "09:00:00" 9 "X" "Member" "Male" invoice_id).

(** The three records of the literal scenario. *)
Definition scenario : DataFrame :=
  {| columns := loaded_columns;
     rows :=
       [ fixture_row 10 "2024-01-01" (mk_date 2024 1 1) "09:00:00" 9 "X" "Member" "Male" "I1";
         fixture_row 20 "2024-01-02" (mk_date 2024 1 2) "14:00:00" 14 "Y" "Normal" "Female" "I2";
         fixture_row 30 "2024-01-02" (mk_date 2024 1 2) "14:00:00" 14 "Y" "Normal" "Female" "I2" ] |}.

(** A loaded frame whose rows bear the given invoice ids. *)
Definition frame_of_ids (ids : list string) : DataFrame :=
  {| columns := loaded_columns;
     rows := map (fixture_row 10 "2024-01-01" (mk_date 2024 1 1) "09:00:00" 9
                    "X" "Member" "Male") ids |}.

(** A loaded dataset with no row. *)
Definition no_rows : DataFrame := {| columns := loaded_columns; rows := [] |}.

(** A workbook whose sheet [Sales] has every required column and [n] rows
    that parse, and one whose sheet lacks the column [Rating]. *)
Definition workbook_of_rows (n : nat) : Workbook :=
  [ ("Sales", {| sheet_columns := required_columns;
                 sheet_rows := repeat (fixture_sheet_row "I1") n |}) ].

Definition workbook_without_rating : Workbook :=
  [ ("Sales", {| sheet_columns := removelast required_columns;
                 sheet_rows := repeat (fixture_sheet_row "I1") 3 |}) ].

(** A sheet row whose time does not parse, and a workbook whose sheet
    [Sales] has 1000 rows that parse followed by that row. *)
Definition fixture_bad_row : SheetRow :=
  cells (fixture_row 10 "2024-01-01" (mk_date 2024 1 1) "25:61:00" 0
           "X" "Member" "Male" "I9").

Definition workbook_with_late_bad_row : Workbook :=
  [ ("Sales", {| sheet_columns := required_columns;
                 sheet_rows := (repeat (fixture_sheet_row "I1") 1000
                                ++ [fixture_bad_row])%list |}) ].

Definition workbook_with_early_bad_row : Workbook :=
  [ ("Sales", {| sheet_columns := required_columns;
                 sheet_rows := [fixture_sheet_row "I1"; fixture_bad_row;
                                fixture_sheet_row "I2"] |}) ].

(** Two records, the second with a blank product line; and records whose
    rating is blank, alone or beside a rated one. *)
Definition blank_product_line : WithBlanks.DataFrame :=
  {| WithBlanks.columns := loaded_columns;
     WithBlanks.rows :=
       [ WithBlanks.mk_blank_row
           (fixture_row 20 "2024-01-02" (mk_date 2024 1 2) "14:00:00" 14
              "Y" "Normal" "Female" "I2") [];
         WithBlanks.mk_blank_row
           (fixture_row 10 "2024-01-01" (mk_date 2024 1 1) "09:00:00" 9
              "X" "Member" "Male" "I1") ["Product line"] ] |}.



(* ------------------------------------------------------------------ *)
(** ** The result monad and column access *)

Section Monad.
Context {A B : Type}.

Lemma bind_Ok (m : result A) (k : A -> result B) (b : B) :
  (x <- m ;; k x) = Ok b -> exists a, m = Ok a /\ k a = Ok b.
Proof. destruct m as [a|e]; simpl; [eauto | discriminate]. Qed.

End Monad.

Lemma getitem_Ok {A : Type} (df : DataFrame) (col : string) (cell : Row -> A) l :
  getitem df col cell = Ok l ->
  mem String.eqb col (columns df) = true /\ l = map cell (rows df).
Proof.
  unfold getitem. destruct (mem String.eqb col (columns df)); [|discriminate].
  intros [= <-]. auto.
Qed.

Lemma getitem_present {A : Type} (df : DataFrame) (col : string) (cell : Row -> A) :
  mem String.eqb col (columns df) = true ->
  getitem df col cell = Ok (map cell (rows df)).
Proof. unfold getitem. now intros ->. Qed.

Lemma has_columns_mem cols df col :
  has_columns cols df = true -> In col cols ->
  mem String.eqb col (columns df) = true.
Proof. unfold has_columns. rewrite forallb_forall. auto. Qed.

Lemma loaded_getitem {A : Type} (df : DataFrame) (col : string) (cell : Row -> A) :
  loaded df -> In col loaded_columns ->
  getitem df col cell = Ok (map cell (rows df)).
Proof. intros Hl Hin. apply getitem_present. eapply has_columns_mem; eauto. Qed.

(** Membership in a column list given by its literal entries. *)
Ltac column_listed := unfold loaded_columns, required_columns; simpl; tauto.

(* ------------------------------------------------------------------ *)
(** ** Rounding and sums *)

Lemma rint_close (x : Q) : Qabs (inject_Z (rint x) - x) <= 1 # 2.
Proof.
  pose proof (Qfloor_le x) as Hlo. pose proof (Qlt_floor x) as Hhi.
  rewrite inject_Z_plus in Hhi. change (inject_Z 1) with 1 in Hhi.
  apply Qabs_Qle_condition. unfold rint.
  destruct (Qcompare (x - inject_Z (Qfloor x)) (1 # 2)) eqn:Hc.
  - apply Qeq_alt in Hc. destruct (Z.even (Qfloor x)).
    + split; lra.
    + rewrite inject_Z_plus. change (inject_Z 1) with 1. split; lra.
  - apply Qlt_alt in Hc. split; lra.
  - apply Qgt_alt in Hc. rewrite inject_Z_plus. change (inject_Z 1) with 1.
    split; lra.
Qed.

Lemma round2_close (x : Q) : Qabs (Py.round x 2 - x) <= 1 # 200.
Proof.
  pose proof (rint_close (x * Py.pow10 2)) as H.
  apply Qabs_Qle_condition in H. apply Qabs_Qle_condition.
  unfold Py.round. rewrite Qred_correct.
  change (Py.pow10 2) with (inject_Z 100) in *.
  set (r := inject_Z (rint (x * inject_Z 100))) in *. clearbody r.
  change (inject_Z 100) with 100 in *.
  unfold Qdiv. change (/ 100) with (1 # 100).
  split; lra.
Qed.

Lemma fold_left_Qplus_from (s : list Q) (a : Q) :
  fold_left Qplus s a == a + fold_left Qplus s 0.
Proof.
  revert a. induction s as [|x s IH]; intros a; simpl.
  - lra.
  - rewrite (IH (a + x)), (IH (0 + x)). lra.
Qed.

Lemma sum_cons (x : Q) (s : list Q) : sum (x :: s) == x + sum s.
Proof. unfold sum. simpl. rewrite fold_left_Qplus_from. lra. Qed.

Lemma of_nat_S (n : nat) : Py.of_nat (S n) == Py.of_nat n + 1.
Proof.
  unfold Py.of_nat. rewrite Nat2Z.inj_succ, <- Z.add_1_r, inject_Z_plus.
  reflexivity.
Qed.

Section GroupedSums.
Context {K : Type}.
Variable cmp : K -> K -> comparison.

Lemma sum_values_upsert (k : K) (v : Q) (groups : list (K * Q)) :
  sum (values (upsert cmp k v groups)) == v + sum (values groups).
Proof.
  unfold values.
  induction groups as [|[k' v'] t IH]; cbn [upsert map snd].
  - rewrite sum_cons. reflexivity.
  - destruct (cmp k k'); cbn [map snd]; rewrite !sum_cons; try rewrite IH; lra.
Qed.

Lemma sum_values_fold (keyed groups : list (K * Q)) :
  sum (values (fold_left (fun g kv => upsert cmp (fst kv) (snd kv) g) keyed groups))
  == sum (values groups) + sum (map snd keyed).
Proof.
  revert groups. induction keyed as [|[k v] t IH]; intros groups; simpl.
  - unfold sum at 3. simpl. lra.
  - rewrite IH, sum_values_upsert, sum_cons. lra.
Qed.

(** Grouping loses no amount: the group sums add up to the column sum. *)
Lemma sum_values_groupby (keyed : list (K * Q)) :
  sum (values (groupby_sum cmp keyed)) == sum (map snd keyed).
Proof.
  unfold groupby_sum. rewrite sum_values_fold. unfold sum at 1. simpl. lra.
Qed.

Lemma length_round_values (n : nat) (groups : list (K * Q)) :
  length (round_values n groups) = length groups.
Proof. unfold round_values. apply length_map. Qed.

(** Rounding each group moves the sum by at most half a cent a group. *)
Lemma sum_round_values_close (groups : list (K * Q)) :
  Qabs (sum (values (round_values 2 groups)) - sum (values groups))
  <= Py.of_nat (length groups) * (1 # 200).
Proof.
  induction groups as [|[k v] t IH].
  - vm_compute. discriminate.
  - unfold values, round_values in *. cbn [map fst snd length].
    pose proof (round2_close v) as Hv.
    apply Qabs_Qle_condition in Hv. apply Qabs_Qle_condition in IH.
    apply Qabs_Qle_condition. rewrite !sum_cons, of_nat_S. split; lra.
Qed.

Lemma snd_combine_map {R : Type} (f : R -> K) (g : R -> Q) (l : list R) :
  map snd (combine (map f l) (map g l)) = map g l.
Proof. induction l; simpl; congruence. Qed.
End GroupedSums.

(* ------------------------------------------------------------------ *)
(** ** What [calculate_kpis] returns *)

Lemma of_nat_pos_nonzero (n : nat) :
  (0 <? n)%nat = true -> Qeq_bool (Py.of_nat n) 0 = false.
Proof.
  intros Hn. apply Nat.ltb_lt in Hn.
  destruct (Qeq_bool (Py.of_nat n) 0) eqn:E; [|reflexivity].
  apply Qeq_bool_eq in E. unfold Py.of_nat, Qeq in E. simpl in E. lia.
Qed.

(** A division behind the guard [n > 0] goes through. *)
Lemma truediv_guarded (a : Q) (n : nat) :
  (0 <? n)%nat = true -> truediv a (Py.of_nat n) = Ok (a / Py.of_nat n).
Proof. intros Hn. unfold truediv. now rewrite of_nat_pos_nonzero. Qed.

Lemma sales_by_Ok {K : Type} (cmp : K -> K -> comparison) df col (cell : Row -> K) d :
  sales_by cmp df col cell = Ok d ->
  d = round_values 2
        (groupby_sum cmp (combine (map cell (rows df))
                                  (map (fun r => Total (cells r)) (rows df)))).
Proof.
  unfold sales_by. intros H.
  apply bind_Ok in H. destruct H as (keys & Hk & H).
  apply bind_Ok in H. destruct H as (totals & Ht & H).
  apply getitem_Ok in Hk. apply getitem_Ok in Ht.
  destruct Hk as [_ ->]. destruct Ht as [_ ->]. now injection H as <-.
Qed.

Lemma sales_by_loaded {K : Type} (cmp : K -> K -> comparison) df col (cell : Row -> K) :
  loaded df -> In col loaded_columns ->
  sales_by cmp df col cell =
  Ok (round_values 2
        (groupby_sum cmp (combine (map cell (rows df))
                                  (map (fun r => Total (cells r)) (rows df))))).
Proof.
  intros Hl Hin. unfold sales_by.
  rewrite (loaded_getitem df col cell Hl Hin). simpl.
  rewrite (loaded_getitem df "Total" _ Hl) by column_listed. reflexivity.
Qed.

Lemma repeat_customers_of_Ok df n :
  repeat_customers_of df = Ok n ->
  n = sum_bool (duplicated String.eqb (map (fun r => Invoice_ID (cells r)) (rows df))).
Proof.
  unfold repeat_customers_of. intros H.
  apply bind_Ok in H. destruct H as (ids & Hi & H).
  apply getitem_Ok in Hi. destruct Hi as [_ ->]. now injection H as <-.
Qed.

Lemma total_customers_of_Ok df n :
  total_customers_of df = Ok n ->
  n = length (unique String.eqb (map (fun r => Invoice_ID (cells r)) (rows df))).
Proof.
  unfold total_customers_of. intros H.
  apply bind_Ok in H. destruct H as (ids & Hi & H).
  apply getitem_Ok in Hi. destruct Hi as [_ ->]. now injection H as <-.
Qed.

Ltac open_bind H x Hx :=
  cbv zeta in H; apply bind_Ok in H; destruct H as (x & Hx & H).

(** The fields of a result of [calculate_kpis], read off the rows. *)
Lemma calculate_kpis_fields (df : DataFrame) (k : KPIs) :
  calculate_kpis df = Ok k ->
  let rs := rows df in
  let totals := map (fun r => Total (cells r)) rs in
  let ids := map (fun r => Invoice_ID (cells r)) rs in
  let grouped {K : Type} (cmp : K -> K -> comparison) (cell : Row -> K) :=
    round_values 2 (groupby_sum cmp (combine (map cell rs) totals)) in
  let customers := length (unique String.eqb ids) in
  total_sales k = Py.round (sum totals) 2 /\
  total_transactions k = length rs /\
  avg_sale_per_transaction k =
    (if (0 <? length rs)%nat
     then Py.round (Py.round (sum totals) 2 / Py.of_nat (length rs)) 2 else 0) /\
  avg_rating k =
    option_map (fun m => Py.round m 1) (mean (map (fun r => Rating (cells r)) rs)) /\
  total_customers k = customers /\
  product_sales k = grouped String.compare (fun r => Product_line (cells r)) /\
  hour_sales k = grouped Z.compare hour /\
  monthly_sales k = grouped period_compare month /\
  customer_type_sales k = grouped String.compare (fun r => Customer_type (cells r)) /\
  gender_sales k = grouped String.compare (fun r => Gender (cells r)) /\
  city_sales k = grouped String.compare (fun r => City (cells r)) /\
  repeat_customer_rate k =
    (if (0 <? customers)%nat
     then Py.round (Py.of_nat (sum_bool (duplicated String.eqb ids))
                    / Py.of_nat customers * 100) 2
     else 0) /\
  clv k =
    Py.round
      ((if (0 <? customers)%nat
        then Py.round (sum totals) 2 / Py.of_nat customers else 0)
       * (if (0 <? customers)%nat
          then Py.of_nat (length rs) / Py.of_nat customers else 0)
       * avg_customer_lifespan) 2.
Proof.
  unfold calculate_kpis, len. intros H.
  open_bind H total Htotal. open_bind H avg Havg.
  open_bind H rating Hrating. open_bind H customers Hcust.
  open_bind H ps Hps. open_bind H hs Hhs. open_bind H ms Hms.
  open_bind H cts Hcts. open_bind H gs Hgs. open_bind H cs Hcs.
  open_bind H rep Hrep. open_bind H rate Hrate.
  open_bind H apv Hapv. open_bind H pf Hpf.
  cbv zeta in H. injection H as <-. cbn [total_sales total_transactions
    avg_sale_per_transaction avg_rating total_customers product_sales
    hour_sales monthly_sales customer_type_sales gender_sales city_sales
    repeat_customer_rate clv].
  apply getitem_Ok in Htotal. destruct Htotal as [_ ->].
  apply getitem_Ok in Hrating. destruct Hrating as [_ ->].
  apply total_customers_of_Ok in Hcust. apply repeat_customers_of_Ok in Hrep.
  apply sales_by_Ok in Hps, Hhs, Hms, Hcts, Hgs, Hcs. subst.
  set (customers := length (unique String.eqb _)) in *.
  assert (Eavg : avg =
    if (0 <? length (rows df))%nat
    then Py.round (Py.round (sum (map (fun r => Total (cells r)) (rows df))) 2
                   / Py.of_nat (length (rows df))) 2 else 0).
  { destruct (0 <? length (rows df))%nat eqn:E.
    - rewrite truediv_guarded in Havg by assumption. simpl in Havg. congruence.
    - congruence. }
  destruct (0 <? customers)%nat eqn:E.
  - rewrite truediv_guarded in Hrate, Hapv, Hpf by assumption.
    simpl in Hrate. injection Hrate as <-. injection Hapv as <-.
    injection Hpf as <-. repeat split; assumption || reflexivity.
  - injection Hrate as <-. injection Hapv as <-. injection Hpf as <-.
    repeat split; assumption || reflexivity.
Qed.

(** On a frame with the loaded columns [calculate_kpis] returns: no column
    is missing and every division sits behind its guard. *)
Lemma calculate_kpis_returns (df : DataFrame) :
  loaded df -> exists k, calculate_kpis df = Ok k.
Proof.
  intros Hl. unfold calculate_kpis, total_customers_of, repeat_customers_of, len.
  rewrite (loaded_getitem df "Total" _ Hl) by column_listed. cbn [Py.bind].
  rewrite (loaded_getitem df "Rating" _ Hl) by column_listed.
  rewrite (loaded_getitem df "Invoice ID" _ Hl) by column_listed.
  rewrite !sales_by_loaded by (assumption || column_listed).
  cbn [Py.bind].
  set (customers := length (unique String.eqb _)).
  destruct (0 <? length (rows df))%nat eqn:En;
    [rewrite truediv_guarded by assumption|];
    (destruct (0 <? customers)%nat eqn:Ec;
     [rewrite !truediv_guarded by assumption|]);
    cbn [Py.bind]; eexists; reflexivity.
Qed.

(* ------------------------------------------------------------------ *)
(** ** The aggregator: grouped sums and guarded ratios *)

Lemma no_rows_at_defaults (df : DataFrame) (k : KPIs) :
  calculate_kpis df = Ok k -> rows df = [] -> at_defaults k.
Proof.
  intros Hk Hr. apply calculate_kpis_fields in Hk. cbv zeta in Hk.
  rewrite Hr in Hk. cbn [map length] in Hk.
  destruct Hk as (H1 & H2 & H3 & H4 & H5 & H6 & H7 & H8 & H9 & H10 & H11 & H12 & H13).
  unfold at_defaults. repeat split; assumption.
Qed.

(** Whatever the frame, the only exception of [calculate_kpis] is the
    [KeyError] of a column that the frame does not have. *)
Lemma calculate_kpis_raises_only_KeyError (df : DataFrame) (e : exn) :
  calculate_kpis df = Raise e ->
  exists col, e = KeyError col /\ mem String.eqb col (columns df) = false.
Proof.
  unfold calculate_kpis, sales_by, total_customers_of, repeat_customers_of,
    getitem, len.
  intros H.
  destruct (mem String.eqb "Total" (columns df)) eqn:Htotal; cbn [Py.bind] in H;
    [| injection H as <-; eexists; split; [reflexivity | assumption]].
  destruct (0 <? length (rows df))%nat eqn:En;
    [rewrite truediv_guarded in H by assumption|]; cbn [Py.bind] in H.
  all: repeat match type of H with
       | context [mem String.eqb ?c (columns ?d)] =>
           destruct (mem String.eqb c (columns d)) eqn:?; cbn [Py.bind] in H;
           [| injection H as <-; eexists; split; [reflexivity | assumption]]
       end.
  all: match type of H with
       | context [(0 <? ?c)%nat] =>
           destruct (0 <? c)%nat eqn:Ec;
           [rewrite !truediv_guarded in H by assumption|]
       end; cbn [Py.bind] in H; discriminate.
Qed.

(** C2. [calculate_kpis] never raises from its arithmetic: every division
    sits behind its guard.  On no frame does it raise anything but the
    [KeyError] of a column the frame lacks, and on a record collection with
    the loaded columns, the empty one included, it returns.  When there is
    no transaction, the average sale, the repeat customer rate and the
    customer lifetime value are 0; on the collection with no row every metric
    is at its default. *)
Theorem calculate_kpis_guarded (df : DataFrame) :
  (forall e, calculate_kpis df = Raise e ->
     e <> ZeroDivisionError /\
     exists col, e = KeyError col /\ mem String.eqb col (columns df) = false) /\
  (loaded df ->
   exists k, calculate_kpis df = Ok k /\
     (total_transactions k = 0%nat ->
      avg_sale_per_transaction k = 0 /\ repeat_customer_rate k = 0 /\ clv k = 0) /\
     (rows df = [] -> at_defaults k)).
Proof.
  split.
  { intros e H. apply calculate_kpis_raises_only_KeyError in H.
    destruct H as (col & -> & Hcol). split; [discriminate | eauto]. }
  intros Hl. destruct (calculate_kpis_returns df Hl) as [k Hk].
  exists k. split; [assumption|]. split.
  - intros H0.
    assert (Hr : rows df = []).
    { pose proof (calculate_kpis_fields df k Hk) as F. cbv zeta in F.
      destruct F as (_ & F & _). rewrite F in H0.
      now apply length_zero_iff_nil. }
    destruct (no_rows_at_defaults df k Hk Hr)
      as (_ & _ & ? & _ & _ & _ & _ & _ & _ & _ & _ & ? & ?).
    auto.
  - now apply no_rows_at_defaults.
Qed.

Lemma calculate_kpis_guarded_witness :
  exists k, calculate_kpis no_rows = Ok k /\
    avg_sale_per_transaction k = 0 /\ repeat_customer_rate k = 0 /\ clv k = 0 /\
    at_defaults k.
Proof.
  destruct (calculate_kpis_guarded no_rows) as [_ Hruns].
  destruct (Hruns eq_refl) as (k & Hk & Hzero & Hdefaults).
  exists k. split; [exact Hk|].
  destruct (Hdefaults eq_refl) as (Hs & Ht & Hd).
  destruct (Hzero Ht) as (Ha & Hr & Hc).
  repeat split; solve [assumption | apply (Hdefaults eq_refl)].
Defined.

(* ------------------------------------------------------------------ *)
(** ** Invoice ids: distinct values and repeated rows *)

Section InvoiceIds.
Abbreviation dup := (duplicated_from String.eqb).
Abbreviation uniq := (unique_from String.eqb).
Abbreviation member := (mem String.eqb).

Lemma member_cons (y x : string) (seen : list string) :
  member y (x :: seen) = (String.eqb y x || member y seen)%bool.
Proof. reflexivity. Qed.

(** Every row is either the first of its id or flagged as a repeat; the
    two traversals may hold their seen ids in different lists. *)
Lemma duplicated_plus_unique_from (s seen1 seen2 : list string) :
  (forall y, member y seen1 = member y seen2) ->
  (sum_bool (dup seen1 s) + length (uniq seen2 s) = length s)%nat.
Proof.
  revert seen1 seen2. induction s as [|x t IH]; intros seen1 seen2 Hs;
    [reflexivity|].
  unfold sum_bool in *. cbn [duplicated_from unique_from].
  rewrite (Hs x). destruct (member x seen2) eqn:E; cbn [filter length].
  - rewrite <- (IH (x :: seen1) seen2); [lia|].
    intros y. rewrite member_cons, Hs.
    destruct (String.eqb y x) eqn:Eyx; [|reflexivity].
    apply String.eqb_eq in Eyx. subst y. now rewrite E.
  - rewrite <- (IH (x :: seen1) (x :: seen2)); [lia|].
    intros y. rewrite !member_cons, Hs. reflexivity.
Qed.

Lemma duplicated_plus_unique (s : list string) :
  (sum_bool (duplicated String.eqb s) + length (unique String.eqb s)
   = length s)%nat.
Proof. now apply duplicated_plus_unique_from. Qed.

(** The flag of position [i]: the id was seen before the traversal
    started, or at a position before [i]. *)
Lemma nth_duplicated_from (s seen : list string) (i : nat) :
  (i < length s)%nat ->
  nth i (dup seen s) false
  = (member (nth i s "") seen || member (nth i s "") (firstn i s))%bool.
Proof.
  revert seen i. induction s as [|x t IH]; intros seen i Hi;
    [simpl in Hi; lia|].
  destruct i as [|i]; cbn [duplicated_from nth firstn].
  - now rewrite orb_false_r.
  - rewrite IH by (simpl in Hi; lia). rewrite !member_cons.
    destruct (String.eqb (nth i t "") x), (member (nth i t "") seen);
      reflexivity.
Qed.

Lemma nth_duplicated (s : list string) (i : nat) :
  (i < length s)%nat ->
  nth i (duplicated String.eqb s) false = seen_earlier s i.
Proof.
  intros Hi. unfold duplicated, seen_earlier.
  exact (nth_duplicated_from s [] i Hi).
Qed.

Lemma length_duplicated_from (s seen : list string) :
  length (dup seen s) = length s.
Proof.
  revert seen.
  induction s as [|x t IH]; intros seen; simpl; [|rewrite IH]; reflexivity.
Qed.

(** Counting the [True] of a boolean column by position. *)
Lemma filter_map_S (f : nat -> bool) (m : list nat) :
  length (filter f (map S m)) = length (filter (fun i => f (S i)) m).
Proof.
  induction m as [|a m IHm]; [reflexivity|].
  simpl. destruct (f (S a)); simpl; now rewrite IHm.
Qed.

Lemma sum_bool_by_index (l : list bool) :
  sum_bool l = length (filter (fun i => nth i l false) (seq 0 (length l))).
Proof.
  unfold sum_bool. induction l as [|b t IH]; [reflexivity|].
  cbn [length seq filter nth]. rewrite <- seq_shift.
  destruct b; cbn [length]; rewrite filter_map_S; cbn [nth]; now rewrite IH.
Qed.

(** [duplicated().sum()] is the number of rows whose id occurs earlier. *)
Lemma sum_bool_duplicated (s : list string) :
  sum_bool (duplicated String.eqb s) = earlier_count s.
Proof.
  rewrite sum_bool_by_index. unfold earlier_count, duplicated.
  rewrite length_duplicated_from. f_equal. apply filter_ext_in.
  intros i Hi. apply in_seq in Hi. apply nth_duplicated. lia.
Qed.
End InvoiceIds.

Lemma repeat_customers_of_loaded (df : DataFrame) :
  loaded df ->
  repeat_customers_of df =
  Ok (sum_bool (duplicated String.eqb (map (fun r => Invoice_ID (cells r)) (rows df)))).
Proof.
  intros Hl. unfold repeat_customers_of.
  now rewrite (loaded_getitem df "Invoice ID" _ Hl) by column_listed.
Qed.

(** C5. [repeat_customers], the count from which [calculate_kpis] computes
    the repeat customer rate it returns, counts exactly the rows whose
    invoice id occurs at a strictly earlier position (row [i] is flagged iff
    its id is among the ids of the rows before it), so the first occurrence of
    an id does not count; when the occurrences of every id are contiguous it
    equals [total_transactions - total_customers]; and for the ids
    [A, A, B, C, C, C] there are 3 customers and 3 repeats. *)
Theorem repeat_customers_counts_earlier_ids (df : DataFrame) :
  loaded df ->
  let ids := map (fun r => Invoice_ID (cells r)) (rows df) in
  exists k n,
    calculate_kpis df = Ok k /\ repeat_customers_of df = Ok n /\
    repeat_customer_rate k
      = (if (0 <? total_customers k)%nat
         then Py.round (Py.of_nat n / Py.of_nat (total_customers k) * 100) 2
         else 0) /\
    n = earlier_count ids /\
    (forall i, (i < length ids)%nat ->
       nth i (duplicated String.eqb ids) false = seen_earlier ids i) /\
    (contiguous ids = true ->
       n = (total_transactions k - total_customers k)%nat /\
       (n + total_customers k = total_transactions k)%nat) /\
    (ids = ["A"; "A"; "B"; "C"; "C"; "C"] -> total_customers k = 3%nat /\ n = 3%nat).
Proof.
  intros Hl ids. destruct (calculate_kpis_returns df Hl) as [k Hk].
  exists k, (sum_bool (duplicated String.eqb ids)).
  pose proof (calculate_kpis_fields df k Hk) as F. cbv zeta in F.
  destruct F as (_ & Ht & _ & _ & Hc & _ & _ & _ & _ & _ & _ & Hrate & _).
  fold ids in Hc, Hrate.
  pose proof (duplicated_plus_unique ids) as Hsum.
  assert (Hlen : length ids = length (rows df)) by apply length_map.
  split; [assumption|].
  split; [now apply repeat_customers_of_loaded|].
  split; [now rewrite Hrate, Hc|].
  split; [apply sum_bool_duplicated|].
  split; [intros i Hi; now apply nth_duplicated|].
  split.
  - intros _. split; lia.
  - intros Hids. rewrite Hc, Hids. split; reflexivity.
Qed.

Lemma repeat_customers_counts_earlier_ids_witness :
  exists k n,
    calculate_kpis (frame_of_ids ["A"; "A"; "B"; "C"; "C"; "C"]) = Ok k /\
    repeat_customers_of (frame_of_ids ["A"; "A"; "B"; "C"; "C"; "C"]) = Ok n /\
    repeat_customer_rate k = 100 /\
    n = earlier_count ["A"; "A"; "B"; "C"; "C"; "C"] /\
    n = (total_transactions k - total_customers k)%nat /\
    total_customers k = 3%nat /\ n = 3%nat.
Proof.
  destruct (repeat_customers_counts_earlier_ids
              (frame_of_ids ["A"; "A"; "B"; "C"; "C"; "C"]) eq_refl)
    as (k & n & Hk & Hn & Hrate & He & _ & Hcontiguous & Hfixture).
  exists k, n.
  destruct (Hcontiguous eq_refl) as [Hsub _].
  destruct (Hfixture eq_refl) as [Hc H3].
  rewrite Hc, H3 in Hrate.
  repeat split; assumption.
Defined.

(** C10. With no assumption on the order of the rows, [repeat_customers],
    the count from which [calculate_kpis] computes the repeat customer rate
    it returns, is [total_transactions - total_customers]: the number of rows
    minus the number of distinct invoice ids. *)
Theorem repeat_customers_is_rows_minus_distinct (df : DataFrame) :
  loaded df ->
  exists k n,
    calculate_kpis df = Ok k /\ repeat_customers_of df = Ok n /\
    repeat_customer_rate k
      = (if (0 <? total_customers k)%nat
         then Py.round (Py.of_nat n / Py.of_nat (total_customers k) * 100) 2
         else 0) /\
    n = (total_transactions k - total_customers k)%nat /\
    (n + total_customers k = total_transactions k)%nat /\
    total_transactions k = length (rows df) /\
    total_customers k =
      length (unique String.eqb (map (fun r => Invoice_ID (cells r)) (rows df))).
Proof.
  intros Hl. destruct (calculate_kpis_returns df Hl) as [k Hk].
  set (ids := map (fun r => Invoice_ID (cells r)) (rows df)).
  exists k, (sum_bool (duplicated String.eqb ids)).
  pose proof (calculate_kpis_fields df k Hk) as F. cbv zeta in F.
  destruct F as (_ & Ht & _ & _ & Hc & _ & _ & _ & _ & _ & _ & Hrate & _).
  fold ids in Hc, Hrate.
  pose proof (duplicated_plus_unique ids) as Hsum.
  assert (Hlen : length ids = length (rows df)) by apply length_map.
  split; [assumption|].
  split; [now apply repeat_customers_of_loaded|].
  split; [now rewrite Hrate, Hc|].
  repeat split; try assumption; lia.
Qed.

Lemma repeat_customers_is_rows_minus_distinct_witness :
  exists k n,
    calculate_kpis (frame_of_ids ["A"; "B"; "A"; "C"; "B"]) = Ok k /\
    repeat_customers_of (frame_of_ids ["A"; "B"; "A"; "C"; "B"]) = Ok n /\
    repeat_customer_rate k = 6667 # 100 /\
    n = (total_transactions k - total_customers k)%nat /\
    (n + total_customers k = total_transactions k)%nat /\
    total_transactions k = 5%nat /\
    total_customers k = 3%nat /\ n = 2%nat.
Proof.
  destruct (repeat_customers_is_rows_minus_distinct
              (frame_of_ids ["A"; "B"; "A"; "C"; "B"]) eq_refl)
    as (k & n & Hk & Hn & Hrate & Hsub & Hadd & Ht & Hc).
  exists k, n.
  assert (Ht5 : total_transactions k = 5%nat) by exact Ht.
  assert (Hc3 : total_customers k = 3%nat) by exact Hc.
  assert (Hn2 : n = 2%nat) by (rewrite Hsub, Ht5, Hc3; reflexivity).
  rewrite Hc3, Hn2 in Hrate.
  repeat split; assumption.
Defined.

(** C6. For three records with totals 10.00, 20.00, 30.00, cities X, Y, Y
    and invoice ids I1, I2, I2 (whatever their other cells),
    [calculate_kpis] returns [total_sales = 60.00],
    [total_transactions = 3], [total_customers = 2], computes
    [repeat_customers = 1], and returns [repeat_customer_rate = 50.00] and
    [city_sales = {X: 10.00, Y: 50.00}]. *)
Theorem literal_scenario_kpis (df : DataFrame) (r1 r2 r3 : Row) :
  loaded df ->
  rows df = [r1; r2; r3] ->
  map (fun r => Total (cells r)) [r1; r2; r3] = [10; 20; 30] ->
  map (fun r => City (cells r)) [r1; r2; r3] = ["X"; "Y"; "Y"] ->
  map (fun r => Invoice_ID (cells r)) [r1; r2; r3] = ["I1"; "I2"; "I2"] ->
  exists k,
    calculate_kpis df = Ok k /\
    total_sales k = 60 /\
    total_transactions k = 3%nat /\
    total_customers k = 2%nat /\
    repeat_customers_of df = Ok 1%nat /\
    repeat_customer_rate k = 50 /\
    city_sales k = [("X", 10); ("Y", 50)].
Proof.
  intros Hl Hr Htot Hcity Hid.
  destruct (calculate_kpis_returns df Hl) as [k Hk]. exists k.
  pose proof (calculate_kpis_fields df k Hk) as F. cbv zeta in F.
  rewrite Hr, Htot, Hcity, Hid in F.
  destruct F as (Hs & Ht & _ & _ & Hc & _ & _ & _ & _ & _ & Hcs & Hrate & _).
  repeat split; try assumption.
  rewrite (repeat_customers_of_loaded df Hl), Hr, Hid. reflexivity.
Qed.

Lemma literal_scenario_kpis_witness :
  exists k,
    calculate_kpis scenario = Ok k /\
    total_sales k = 60 /\
    total_transactions k = 3%nat /\
    total_customers k = 2%nat /\
    repeat_customers_of scenario = Ok 1%nat /\
    repeat_customer_rate k = 50 /\
    city_sales k = [("X", 10); ("Y", 50)].
Proof.
  exact (literal_scenario_kpis scenario _ _ _ eq_refl eq_refl eq_refl eq_refl eq_refl).
Defined.

(* ------------------------------------------------------------------ *)
(** ** The filter stage *)

Section Masks.
Context {A : Type}.

Lemma take_mask_map (p : A -> bool) (l : list A) :
  take_mask l (map p l) = filter p l.
Proof.
  induction l as [|x t IH]; [reflexivity|].
  cbn [map take_mask filter]. now rewrite IH.
Qed.

Lemma mask_and_map (p q : A -> bool) (l : list A) :
  mask_and (map p l) (map q l) = map (fun x => p x && q x) l.
Proof.
  induction l as [|x t IH]; [reflexivity|].
  cbn [map mask_and]. now rewrite IH.
Qed.

Lemma isin_map (f : A -> string) (l : list A) (chosen : list string) :
  isin String.eqb (map f l) chosen
  = map (fun x => mem String.eqb (f x) chosen) l.
Proof. unfold isin. apply map_map. Qed.

Lemma filter_all (p : A -> bool) (l : list A) :
  (forall x, In x l -> p x = true) -> filter p l = l.
Proof.
  induction l as [|x t IH]; intros H; [reflexivity|].
  cbn [filter]. rewrite (H x) by now left.
  rewrite IH; [reflexivity|]. intros y Hy. apply H. now right.
Qed.

Lemma filter_none (p : A -> bool) (l : list A) :
  (forall x, In x l -> p x = false) -> filter p l = [].
Proof.
  induction l as [|x t IH]; intros H; [reflexivity|].
  cbn [filter]. rewrite (H x) by now left.
  apply IH. intros y Hy. apply H. now right.
Qed.
End Masks.

Lemma boolean_index_map (df : DataFrame) (p : Row -> bool) :
  boolean_index df (map p (rows df))
  = {| columns := columns df; rows := filter p (rows df) |}.
Proof. unfold boolean_index. now rewrite take_mask_map. Qed.

(** The distinct values of a column cover the column. *)
Lemma unique_from_complete (x : string) (s seen : list string) :
  In x s ->
  (mem String.eqb x seen || mem String.eqb x (unique_from String.eqb seen s))%bool
  = true.
Proof.
  revert seen. induction s as [|y t IH]; intros seen Hin; [contradiction|].
  cbn [unique_from]. destruct Hin as [<- | Hin].
  - destruct (mem String.eqb y seen) eqn:E; [reflexivity|].
    cbn. now rewrite String.eqb_refl.
  - destruct (mem String.eqb y seen) eqn:E.
    + now apply IH.
    + specialize (IH (y :: seen) Hin). cbn in IH |- *.
      destruct (String.eqb x y); [now rewrite orb_true_r|].
      simpl in IH |- *. exact IH.
Qed.

Lemma unique_complete (x : string) (s : list string) :
  In x s -> mem String.eqb x (unique String.eqb s) = true.
Proof. intros H. exact (unique_from_complete x s [] H). Qed.

(** The date stage: what it returns and when. *)
Lemma filter_date_range_rows (df : DataFrame) (lower upper : datetime_date) :
  mem String.eqb "date" (columns df) = true ->
  filter_date_range df [lower; upper]
  = Ok {| columns := columns df;
          rows := filter (fun r => date_le lower (date r) && date_le (date r) upper)
                    (rows df) |}.
Proof.
  intros Hc. unfold filter_date_range.
  rewrite (getitem_present df "date" date Hc). cbn [Py.bind].
  rewrite !map_map, mask_and_map. now rewrite boolean_index_map.
Qed.

Lemma filter_date_range_returns (df : DataFrame) (ui : Sidebar) :
  loaded df -> range_ok ui = true ->
  exists by_date,
    filter_date_range df (date_range ui) = Ok by_date /\
    columns by_date = columns df.
Proof.
  intros Hl Hr. unfold range_ok in Hr.
  destruct (date_range ui) as [|lower [|upper [|more range]]]; try discriminate.
  - exists df. split; reflexivity.
  - eexists. split.
    + apply filter_date_range_rows.
      eapply has_columns_mem; [exact Hl | column_listed].
    + reflexivity.
Qed.

Lemma multiselect_args_loaded (df : DataFrame) (col : string) (cell : Row -> string) :
  loaded df -> In col loaded_columns ->
  multiselect_args df col cell
  = Ok (unique String.eqb (map cell (rows df)),
        unique String.eqb (map cell (rows df))).
Proof.
  intros Hl Hin. unfold multiselect_args.
  rewrite (loaded_getitem df col cell Hl Hin). cbn [Py.bind].
  destruct (empty df) eqn:E; cbn [negb Py.bind]; [|reflexivity].
  pose proof (has_columns_mem _ _ _ Hl Hin) as Hc.
  unfold empty in E. destruct (columns df); [discriminate|].
  destruct (rows df); [reflexivity | discriminate].
Qed.

(** The set filters, once the date stage and the widgets went through. *)
Lemma filtered_df_Ok (df view : DataFrame) (ui : Sidebar) :
  filtered_df df ui = Ok view ->
  exists by_date,
    filter_date_range df (date_range ui) = Ok by_date /\
    view = {| columns := columns by_date;
              rows := filter (fun r =>
                        mem String.eqb (City (cells r)) (city_filter ui)
                        && mem String.eqb (Customer_type (cells r)) (customer_type_filter ui)
                        && mem String.eqb (Gender (cells r)) (gender_filter ui))
                        (rows by_date) |}.
Proof.
  unfold filtered_df. intros H.
  apply bind_Ok in H. destruct H as (by_date & Hd & H).
  apply bind_Ok in H. destruct H as (? & _ & H).
  apply bind_Ok in H. destruct H as (? & _ & H).
  apply bind_Ok in H. destruct H as (? & _ & H).
  apply bind_Ok in H. destruct H as (city & Hc & H).
  apply bind_Ok in H. destruct H as (ctype & Ht & H).
  apply bind_Ok in H. destruct H as (gender & Hg & H).
  apply getitem_Ok in Hc, Ht, Hg.
  destruct Hc as [_ ->]. destruct Ht as [_ ->]. destruct Hg as [_ ->].
  exists by_date. split; [assumption|]. injection H as <-.
  rewrite !isin_map, !mask_and_map. apply boolean_index_map.
Qed.

Lemma filtered_df_loaded (df : DataFrame) (ui : Sidebar) :
  loaded df -> range_ok ui = true ->
  exists by_date,
    filter_date_range df (date_range ui) = Ok by_date /\
    filtered_df df ui
    = Ok {| columns := columns df;
            rows := filter (fun r =>
                      mem String.eqb (City (cells r)) (city_filter ui)
                      && mem String.eqb (Customer_type (cells r)) (customer_type_filter ui)
                      && mem String.eqb (Gender (cells r)) (gender_filter ui))
                      (rows by_date) |}.
Proof.
  intros Hl Hr.
  destruct (filter_date_range_returns df ui Hl Hr) as (by_date & Hd & Hcols).
  exists by_date. split; [assumption|].
  assert (Hl' : loaded by_date) by (unfold loaded, has_columns in *; now rewrite Hcols).
  unfold filtered_df. rewrite Hd. cbn [Py.bind].
  rewrite !multiselect_args_loaded by (assumption || column_listed).
  cbn [Py.bind].
  rewrite !(loaded_getitem by_date _ _ Hl') by column_listed. cbn [Py.bind].
  rewrite !isin_map, !mask_and_map, boolean_index_map, Hcols. reflexivity.
Qed.

(** C8. The date stage of the filter: with no range it keeps every record;
    with both bounds it keeps exactly the records whose date lies between
    them, both ends included, in their order. *)
Theorem date_range_keeps_inclusive_interval (df : DataFrame) :
  loaded df ->
  filter_date_range df [] = Ok df /\
  forall lower upper,
    exists view,
      filter_date_range df [lower; upper] = Ok view /\
      columns view = columns df /\
      rows view = filter (fun r => date_le lower (date r) && date_le (date r) upper)
                    (rows df) /\
      forall r, In r (rows view) <->
                In r (rows df) /\
                date_le lower (date r) = true /\ date_le (date r) upper = true.
Proof.
  intros Hl. split; [reflexivity|]. intros lower upper.
  eexists. split; [|split; [|split]].
  - apply filter_date_range_rows.
    eapply has_columns_mem; [exact Hl | column_listed].
  - reflexivity.
  - reflexivity.
  - intros r. cbn [rows]. rewrite filter_In, andb_true_iff. tauto.
Qed.

Lemma date_range_keeps_inclusive_interval_witness :
  filter_date_range scenario [] = Ok scenario /\
  exists view,
    filter_date_range scenario [mk_date 2024 1 2; mk_date 2024 1 2] = Ok view /\
    rows view = tl (rows scenario).
Proof.
  destruct (date_range_keeps_inclusive_interval scenario eq_refl) as [Hall Hsome].
  split; [exact Hall|].
  destruct (Hsome (mk_date 2024 1 2) (mk_date 2024 1 2)) as (view & Hv & _ & Hrows & _).
  exists view. split; [exact Hv | exact Hrows].
Defined.

(** With nothing touched in the sidebar the filter stage hands the loaded
    dataset on as it is. *)
Lemma untouched_view (df : DataFrame) :
  loaded df ->
  exists ui,
    untouched df = Ok ui /\
    date_range ui = [] /\
    city_filter ui = unique String.eqb (map (fun r => City (cells r)) (rows df)) /\
    customer_type_filter ui
      = unique String.eqb (map (fun r => Customer_type (cells r)) (rows df)) /\
    gender_filter ui = unique String.eqb (map (fun r => Gender (cells r)) (rows df)) /\
    filtered_df df ui = Ok df.
Proof.
  intros Hl.
  set (ui := {| date_range := [];
                city_filter := unique String.eqb (map (fun r => City (cells r)) (rows df));
                customer_type_filter :=
                  unique String.eqb (map (fun r => Customer_type (cells r)) (rows df));
                gender_filter :=
                  unique String.eqb (map (fun r => Gender (cells r)) (rows df)) |}).
  exists ui. repeat split.
  - unfold untouched.
    rewrite !multiselect_args_loaded by (assumption || column_listed).
    reflexivity.
  - destruct (filtered_df_loaded df ui Hl eq_refl) as (by_date & Hd & Hf).
    cbn in Hd. injection Hd as <-. rewrite Hf. f_equal.
    rewrite filter_all.
    + now destruct df.
    + intros r Hr. cbn [ui city_filter customer_type_filter gender_filter].
      rewrite !unique_complete; [reflexivity| | |];
        now apply (in_map (fun r => _ (cells r))).
Qed.

(** C3. On a loaded dataset, the untouched sidebar has no date range and
    each set filter at the distinct observed values of its column; the filter
    stage then returns the dataset itself, and the KPIs of the filtered view
    are exactly those of the unfiltered dataset. *)
Theorem untouched_filters_reproduce_kpis (df : DataFrame) :
  loaded df ->
  exists ui,
    untouched df = Ok ui /\
    date_range ui = [] /\
    city_filter ui = unique String.eqb (map (fun r => City (cells r)) (rows df)) /\
    customer_type_filter ui
      = unique String.eqb (map (fun r => Customer_type (cells r)) (rows df)) /\
    gender_filter ui = unique String.eqb (map (fun r => Gender (cells r)) (rows df)) /\
    filtered_df df ui = Ok df /\
    filtered_kpi_data df ui = calculate_kpis df.
Proof.
  intros Hl.
  destruct (untouched_view df Hl) as (ui & Hu & Hd & Hc & Ht & Hg & Hview).
  exists ui. repeat split; try assumption.
  unfold filtered_kpi_data. now rewrite Hview.
Qed.

Lemma untouched_filters_reproduce_kpis_witness :
  exists ui,
    untouched scenario = Ok ui /\
    date_range ui = [] /\
    city_filter ui = ["X"; "Y"] /\
    customer_type_filter ui = ["Member"; "Normal"] /\
    gender_filter ui = ["Male"; "Female"] /\
    filtered_df scenario ui = Ok scenario /\
    filtered_kpi_data scenario ui = calculate_kpis scenario.
Proof. exact (untouched_filters_reproduce_kpis scenario eq_refl). Defined.

(** C4. When one of the three set filters (cities, customer types, genders)
    is empty, the filtered result has no row, and the KPIs of the dashboard
    are at their defaults: no transaction, the sums and ratios at 0, no
    group.  On a loaded dataset with a date range of no or two dates the
    filter stage and the aggregator do return. *)
Theorem empty_selection_shows_nothing (df : DataFrame) (ui : Sidebar) :
  city_filter ui = [] \/ customer_type_filter ui = [] \/ gender_filter ui = [] ->
  (forall view, filtered_df df ui = Ok view -> rows view = []) /\
  (forall k, filtered_kpi_data df ui = Ok k -> at_defaults k) /\
  (loaded df -> range_ok ui = true ->
   exists view k, filtered_df df ui = Ok view /\ filtered_kpi_data df ui = Ok k).
Proof.
  intros Hempty.
  assert (Hrows : forall view, filtered_df df ui = Ok view -> rows view = []).
  { intros view Hv. apply filtered_df_Ok in Hv.
    destruct Hv as (by_date & _ & ->). cbn [rows]. apply filter_none.
    intros r _. destruct Hempty as [-> | [-> | ->]]; cbn [mem existsb].
    - reflexivity.
    - now rewrite andb_false_r.
    - now rewrite andb_false_r. }
  split; [exact Hrows|]. split.
  - intros k Hk. unfold filtered_kpi_data in Hk.
    apply bind_Ok in Hk. destruct Hk as (view & Hv & Hk).
    eapply no_rows_at_defaults; eauto.
  - intros Hl Hr.
    destruct (filtered_df_loaded df ui Hl Hr) as (by_date & _ & Hf).
    match type of Hf with _ = Ok ?v => set (view := v) in * end.
    assert (Hl' : loaded view) by exact Hl.
    destruct (calculate_kpis_returns view Hl') as [k Hk].
    exists view, k. split; [assumption|].
    unfold filtered_kpi_data. now rewrite Hf.
Qed.

Lemma empty_selection_shows_nothing_witness :
  exists view k,
    filtered_df scenario (mk_sidebar [] [] ["Member"; "Normal"] ["Male"; "Female"])
      = Ok view /\
    filtered_kpi_data scenario (mk_sidebar [] [] ["Member"; "Normal"] ["Male"; "Female"])
      = Ok k /\
    rows view = [] /\ at_defaults k.
Proof.
  destruct (empty_selection_shows_nothing scenario
              (mk_sidebar [] [] ["Member"; "Normal"] ["Male"; "Female"])
              (or_introl eq_refl)) as (Hrows & Hkpis & Hruns).
  destruct (Hruns eq_refl eq_refl) as (view & k & Hv & Hk).
  exists view, k.
  split; [exact Hv|]. split; [exact Hk|].
  split; [exact (Hrows view Hv) | exact (Hkpis k Hk)].
Defined.

(* ------------------------------------------------------------------ *)
(** ** The loader *)

Section LoaderProperties.
Variable to_datetime_hms : string -> option (Z * Z * Z).
Variable to_datetime_date : string -> option datetime_date.

Abbreviation loader_try := (load_data_try to_datetime_hms to_datetime_date).
Abbreviation loader := (load_data to_datetime_hms to_datetime_date).
Abbreviation derive_row := (derive to_datetime_hms to_datetime_date).
Abbreviation row_parses := (parses to_datetime_hms to_datetime_date).

Lemma read_excel_nrows io name nrows sheet :
  read_excel io name nrows = Ok sheet ->
  (length (sheet_rows sheet) <= nrows)%nat.
Proof.
  unfold read_excel. destruct io as [book|]; [|discriminate].
  destruct (find _ book) as [[? sh]|]; [|discriminate].
  intros [= <-]. cbn [sheet_rows]. apply firstn_le_length.
Qed.

Lemma length_traverse {A B : Type} (f : A -> result B) (l : list A) (l' : list B) :
  traverse f l = Ok l' -> length l' = length l.
Proof.
  revert l'. induction l as [|x t IH]; intros l' H.
  - now injection H as <-.
  - cbn [traverse] in H. apply bind_Ok in H. destruct H as (y & _ & H).
    apply bind_Ok in H. destruct H as (ys & Hys & H). injection H as <-.
    cbn [length]. now rewrite (IH ys).
Qed.

(** Rows that parse are all derived, in order, and keep their cells. *)
Lemma traverse_derive_parses (l : list SheetRow) :
  forallb row_parses l = true ->
  exists loaded_rows, traverse derive_row l = Ok loaded_rows /\ map cells loaded_rows = l.
Proof.
  induction l as [|r t IH]; intros H.
  - exists []. split; reflexivity.
  - cbn [forallb] in H. apply andb_true_iff in H. destruct H as [Hr Ht].
    destruct (IH Ht) as (rest & Hrest & Hcells).
    unfold parses in Hr. cbn [traverse]. unfold derive at 1.
    destruct (to_datetime_hms (Time r)) as [[[h m] sec]|]; [|discriminate].
    destruct (to_datetime_date (Date r)) as [d|]; [|discriminate].
    cbn [Py.bind]. rewrite Hrest. cbn [Py.bind].
    eexists. split; [reflexivity|]. cbn [map cells]. now rewrite Hcells.
Qed.

(** Whatever the file holds, the loaded frame has at most 1000 rows. *)
Lemma load_data_at_most_1000 (io : option Workbook) :
  (len (loader io) <= 1000)%nat.
Proof.
  unfold load_data, load_data_try, len.
  destruct (read_excel io "Sales" 1000) as [sheet|e] eqn:E; cbn [Py.bind];
    [|simpl; lia].
  apply read_excel_nrows in E.
  destruct (forallb _ required_columns); [|simpl; lia].
  destruct (traverse derive_row (sheet_rows sheet)) as [loaded_rows|e] eqn:T;
    cbn [Py.bind]; [|simpl; lia].
  apply length_traverse in T. cbn [rows]. lia.
Qed.


(** C9. When the sheet has more than 1000 rows and the rows read parse,
    the loaded dataset is made of the first 1000 rows of the sheet and of
    no other; on the initial run, with the sidebar untouched, the dashboard
    counts 1000 transactions, hence at most 1000. *)
Theorem load_keeps_first_1000_rows (book : Workbook) (name : string) (sheet : Sheet) :
  find (fun entry => String.eqb (fst entry) "Sales") book = Some (name, sheet) ->
  forallb (fun col => mem String.eqb col (sheet_columns sheet)) required_columns
    = true ->
  forallb row_parses (firstn 1000 (sheet_rows sheet)) = true ->
  (1000 < length (sheet_rows sheet))%nat ->
  let df := loader (Some book) in
  map cells (rows df) = firstn 1000 (sheet_rows sheet) /\
  len df = 1000%nat /\
  exists ui k,
    untouched df = Ok ui /\ filtered_kpi_data df ui = Ok k /\
    total_transactions k = 1000%nat /\ (total_transactions k <= 1000)%nat.
Proof.
  intros Hfind Hcols Hparse Hlong df.
  destruct (traverse_derive_parses _ Hparse) as (loaded_rows & Ht & Hcells).
  assert (Hdf : df = {| columns := loaded_columns; rows := loaded_rows |}).
  { unfold df, load_data, load_data_try, read_excel.
    rewrite Hfind. cbn [Py.bind sheet_columns sheet_rows].
    rewrite Hcols, Ht.
    reflexivity. }
  assert (Hlen : len df = 1000%nat).
  { rewrite Hdf. unfold len. cbn [rows].
    rewrite <- (length_map cells), Hcells, length_firstn. lia. }
  assert (Hl : loaded df) by (rewrite Hdf; reflexivity).
  split; [now rewrite Hdf|]. split; [assumption|].
  destruct (untouched_view df Hl) as (ui & Hu & _ & _ & _ & _ & Hview).
  destruct (calculate_kpis_returns df Hl) as [k Hk].
  pose proof (calculate_kpis_fields df k Hk) as F. cbv zeta in F.
  destruct F as (_ & Hn & _). fold (len df) in Hn.
  exists ui, k. repeat split; try assumption.
  - unfold filtered_kpi_data. now rewrite Hview.
  - congruence.
  - rewrite Hn, Hlen. apply Nat.le_refl.
Qed.
End LoaderProperties.


Lemma load_keeps_first_1000_rows_witness :
  len (load_data fixture_hms fixture_date (Some (workbook_of_rows 1500))) = 1000%nat /\
  exists ui k,
    untouched (load_data fixture_hms fixture_date (Some (workbook_of_rows 1500))) = Ok ui /\
    filtered_kpi_data
      (load_data fixture_hms fixture_date (Some (workbook_of_rows 1500))) ui = Ok k /\
    total_transactions k = 1000%nat /\ (total_transactions k <= 1000)%nat.
Proof.
  assert (Hparse : forallb (parses fixture_hms fixture_date)
                     (firstn 1000 (repeat (fixture_sheet_row "I1") 1500)) = true)
    by (vm_compute; reflexivity).
  assert (Hlong : (1000 < length (repeat (fixture_sheet_row "I1") 1500))%nat)
    by (rewrite repeat_length; lia).
  destruct (load_keeps_first_1000_rows fixture_hms fixture_date
              (workbook_of_rows 1500) "Sales"
              (mk_sheet required_columns (repeat (fixture_sheet_row "I1") 1500))
              eq_refl eq_refl Hparse Hlong)
    as (_ & Hlen & Hrun).
  split; [exact Hlen | exact Hrun].
Defined.

(** The frame of a rejected load has no column at all: on it the first
    column lookup of the filter stage, and of the aggregator, raises
    [KeyError]. *)
Remark rejected_load_has_no_column (cities types genders : list string) :
  filtered_kpi_data DataFrame_new (mk_sidebar [] cities types genders)
    = Raise (KeyError "City") /\
  calculate_kpis DataFrame_new = Raise (KeyError "Total").
Proof. split; reflexivity. Qed.

(* ------------------------------------------------------------------ *)
(** ** The orders of the group keys *)

Lemma ascii_compare_refl (a : ascii) : Ascii.compare a a = Eq.
Proof. unfold Ascii.compare. apply N.compare_refl. Qed.

Lemma ascii_compare_lt_trans (a b c : ascii) :
  Ascii.compare a b = Lt -> Ascii.compare b c = Lt -> Ascii.compare a c = Lt.
Proof.
  unfold Ascii.compare. rewrite !N.compare_lt_iff. apply N.lt_trans.
Qed.

Lemma string_compare_lt_trans (a b c : string) :
  String.compare a b = Lt -> String.compare b c = Lt -> String.compare a c = Lt.
Proof.
  revert b c. induction a as [|x a IH]; intros [|y b] [|z c]; simpl;
    try discriminate; try reflexivity.
  destruct (Ascii.compare x y) eqn:Exy; try discriminate;
    destruct (Ascii.compare y z) eqn:Eyz; try discriminate; intros Hab Hbc.
  - apply Ascii.compare_eq_iff in Exy, Eyz. subst.
    rewrite ascii_compare_refl. eauto.
  - apply Ascii.compare_eq_iff in Exy. subst. now rewrite Eyz.
  - apply Ascii.compare_eq_iff in Eyz. subst. now rewrite Exy.
  - now rewrite (ascii_compare_lt_trans x y z).
Qed.

Lemma string_key_order : key_order String.compare.
Proof.
  constructor.
  - intros a b. split; [apply String.compare_eq_iff|].
    intros ->. destruct (String.compare b b) eqn:E; [reflexivity| |];
      pose proof (String.compare_antisym b b) as H; rewrite E in H; discriminate.
  - intros a b. apply String.compare_antisym.
  - apply string_compare_lt_trans.
Qed.

Lemma Z_key_order : key_order Z.compare.
Proof.
  constructor.
  - apply Z.compare_eq_iff.
  - intros a b. apply Z.compare_antisym.
  - intros a b c. rewrite !Z.compare_lt_iff. apply Z.lt_trans.
Qed.

Lemma period_key_order : key_order period_compare.
Proof.
  constructor.
  - intros [ya ma] [yb mb]. unfold period_compare. cbn [p_year p_month].
    destruct (Z.compare ya yb) eqn:Ey.
    + apply Z.compare_eq_iff in Ey. subst. rewrite Z.compare_eq_iff.
      split; [now intros -> | now intros [= ->]].
    + split; [discriminate|]. intros [= -> ->].
      rewrite Z.compare_refl in Ey. discriminate.
    + split; [discriminate|]. intros [= -> ->].
      rewrite Z.compare_refl in Ey. discriminate.
  - intros [ya ma] [yb mb]. unfold period_compare. cbn [p_year p_month].
    rewrite (Z.compare_antisym ya yb), (Z.compare_antisym ma mb).
    destruct (Z.compare ya yb); reflexivity.
  - intros [ya ma] [yb mb] [yc mc]. unfold period_compare. cbn [p_year p_month].
    destruct (Z.compare ya yb) eqn:Eab; try discriminate;
      destruct (Z.compare yb yc) eqn:Ebc; try discriminate;
      rewrite ?Z.compare_eq_iff, ?Z.compare_lt_iff in *.
    + subst. rewrite Z.compare_refl, !Z.compare_lt_iff. apply Z.lt_trans.
    + subst. intros _ _. apply Z.compare_lt_iff in Ebc. now rewrite Ebc.
    + subst. intros _ _. apply Z.compare_lt_iff in Eab. now rewrite Eab.
    + intros _ _. assert (H : (ya < yc)%Z) by lia.
      apply Z.compare_lt_iff in H. now rewrite H.
Qed.

(* ------------------------------------------------------------------ *)
(** ** [round] on equal numbers *)

Lemma rint_Qeq (x y : Q) : x == y -> rint x = rint y.
Proof.
  intros E. unfold rint. rewrite (Qfloor_comp x y E).
  assert (Ec : Qcompare (x - inject_Z (Qfloor y)) (1 # 2)
               = Qcompare (y - inject_Z (Qfloor y)) (1 # 2)).
  { apply Qcompare_comp; [now rewrite E | reflexivity]. }
  now rewrite Ec.
Qed.

(** [round] does not see how a number is written as a fraction. *)
Lemma round_Qeq (x y : Q) (ndigits : nat) :
  x == y -> Py.round x ndigits = Py.round y ndigits.
Proof.
  intros E. unfold Py.round.
  rewrite (rint_Qeq (x * Py.pow10 ndigits) (y * Py.pow10 ndigits))
    by now rewrite E.
  reflexivity.
Qed.

Lemma sum_app_one (s : list Q) (x : Q) : sum (s ++ [x]) == sum s + x.
Proof. unfold sum. rewrite fold_left_app. reflexivity. Qed.

(* ------------------------------------------------------------------ *)
(** ** [groupby]: keys and group sums *)

Section Grouping.
Context {K : Type}.
Variable cmp : K -> K -> comparison.
Hypothesis order : key_order cmp.

Abbreviation keys := (map (@fst K Q)).
Abbreviation ascending := (StronglySorted (fun a b : K => cmp a b = Lt)).
Abbreviation same k := (fun kv : K * Q => match cmp (fst kv) k with Eq => true | _ => false end).

Lemma cmp_refl (a : K) : cmp a a = Eq.
Proof. now apply (cmp_eq cmp order). Qed.

Lemma cmp_gt_lt (a b : K) : cmp a b = Gt -> cmp b a = Lt.
Proof. intros H. now rewrite (cmp_antisym cmp order a b), H. Qed.

Lemma upsert_keys (k0 : K) (v0 : Q) (groups : list (K * Q)) (k : K) :
  In k (keys (upsert cmp k0 v0 groups)) <-> k = k0 \/ In k (keys groups).
Proof.
  induction groups as [|[k' v'] t IH]; cbn [upsert map fst In].
  - intuition.
  - destruct (cmp k0 k') eqn:E; cbn [map fst In].
    + apply (cmp_eq cmp order) in E. subst. intuition.
    + intuition.
    + rewrite IH. intuition.
Qed.

Lemma upsert_ascending (k0 : K) (v0 : Q) (groups : list (K * Q)) :
  ascending (keys groups) -> ascending (keys (upsert cmp k0 v0 groups)).
Proof.
  induction groups as [|[k' v'] t IH]; cbn [upsert map fst]; intros Hs.
  - repeat constructor.
  - apply StronglySorted_inv in Hs. destruct Hs as [Ht Hall].
    destruct (cmp k0 k') eqn:E; cbn [map fst].
    + constructor; assumption.
    + constructor; [constructor; assumption|].
      constructor; [assumption|].
      eapply Forall_impl; [|exact Hall]. intros x Hx.
      exact (cmp_lt_trans cmp order k0 k' x E Hx).
    + constructor; [now apply IH|].
      apply Forall_forall. intros x Hx. apply upsert_keys in Hx.
      destruct Hx as [-> | Hx].
      * now apply cmp_gt_lt.
      * rewrite Forall_forall in Hall. now apply Hall.
Qed.

Lemma ascending_NoDup (l : list K) : ascending l -> NoDup l.
Proof.
  induction 1 as [|a l Hs IH Hall]; constructor; [|assumption].
  intros Hin. rewrite Forall_forall in Hall. specialize (Hall a Hin).
  rewrite cmp_refl in Hall. discriminate.
Qed.

(** The entries of [upsert]: an entry of another key is an old one; the
    entry of the key itself extends the old entry, or is new. *)
Lemma upsert_In (k0 : K) (v0 : Q) (groups : list (K * Q)) (k : K) (v : Q) :
  ascending (keys groups) ->
  In (k, v) (upsert cmp k0 v0 groups) ->
  (k <> k0 /\ In (k, v) groups) \/
  (k = k0 /\ ((exists v1, In (k0, v1) groups /\ v = v1 + v0) \/
              (~ In k0 (keys groups) /\ v = v0))).
Proof.
  induction groups as [|[k' v'] t IH]; cbn [upsert map fst]; intros Hs Hin.
  - destruct Hin as [[= <- <-] | []]. right. split; [reflexivity|]. right.
    split; [intros [] | reflexivity].
  - apply StronglySorted_inv in Hs. destruct Hs as [Ht Hall].
    rewrite Forall_forall in Hall.
    destruct (cmp k0 k') eqn:E.
    + apply (cmp_eq cmp order) in E. subst k'.
      destruct Hin as [[= <- <-] | Hin].
      * right. split; [reflexivity|]. left. exists v'. split; [now left | reflexivity].
      * left. split; [|now right]. intros ->.
        assert (Hk : In k0 (keys t)) by (apply (in_map fst) in Hin; exact Hin).
        specialize (Hall k0 Hk). rewrite cmp_refl in Hall. discriminate.
    + destruct Hin as [[= <- <-] | Hin].
      * right. split; [reflexivity|]. right. split; [|reflexivity].
        intros [<- | Hk].
        -- rewrite cmp_refl in E. discriminate.
        -- specialize (Hall k0 Hk).
           pose proof (cmp_lt_trans cmp order k0 k' k0 E Hall) as H.
           rewrite cmp_refl in H. discriminate.
      * left. split; [|exact Hin].
        intros ->. destruct Hin as [[= -> ->] | Hin].
        -- rewrite cmp_refl in E. discriminate.
        -- assert (Hk : In k0 (keys t)) by (apply (in_map fst) in Hin; exact Hin).
           specialize (Hall k0 Hk).
           pose proof (cmp_lt_trans cmp order k0 k' k0 E Hall) as H.
           rewrite cmp_refl in H. discriminate.
    + destruct Hin as [[= <- <-] | Hin].
      * left. split; [|now left]. intros ->. rewrite cmp_refl in E. discriminate.
      * destruct (IH Ht Hin) as [[Hne Hold] | [-> [[v1 [Hold ->]] | [Hnew ->]]]].
        -- left. split; [assumption | now right].
        -- right. split; [reflexivity|]. left. exists v1. split; [now right | reflexivity].
        -- right. split; [reflexivity|]. right. split; [|reflexivity].
           intros [<- | Hk]; [|contradiction].
           rewrite cmp_refl in E. discriminate.
Qed.

Lemma filter_same_absent (k : K) (seen : list (K * Q)) :
  ~ In k (keys seen) -> filter (same k) seen = [].
Proof.
  intros Hk. apply filter_none. intros [k' v'] Hin. cbn [fst].
  destruct (cmp k' k) eqn:E; try reflexivity.
  apply (cmp_eq cmp order) in E. subst. exfalso. apply Hk.
  apply (in_map fst) in Hin. exact Hin.
Qed.

Lemma grouping_step (seen groups : list (K * Q)) (k0 : K) (v0 : Q) :
  grouping_of cmp seen groups ->
  grouping_of cmp (seen ++ [(k0, v0)]) (upsert cmp k0 v0 groups).
Proof.
  intros (Hs & Hk & Hv). split; [|split].
  - now apply upsert_ascending.
  - intros k. rewrite upsert_keys, map_app, in_app_iff, Hk.
    cbn [map fst In]. intuition.
  - intros k v Hin. rewrite filter_app, map_app. cbn [filter fst].
    destruct (upsert_In k0 v0 groups k v Hs Hin)
      as [[Hne Hold] | [-> [[v1 [Hold ->]] | [Hnew ->]]]].
    + destruct (cmp k0 k) eqn:E;
        [apply (cmp_eq cmp order) in E; congruence | |];
        cbn [map app]; rewrite app_nil_r; now apply Hv.
    + rewrite cmp_refl. cbn [map snd]. rewrite sum_app_one, <- (Hv k0 v1 Hold).
      reflexivity.
    + rewrite cmp_refl. cbn [map snd]. rewrite sum_app_one.
      rewrite filter_same_absent by (now rewrite <- Hk).
      unfold sum at 1. cbn. lra.
Qed.

Lemma grouping_fold (rest seen groups : list (K * Q)) :
  grouping_of cmp seen groups ->
  grouping_of cmp (seen ++ rest)
    (fold_left (fun g kv => upsert cmp (fst kv) (snd kv) g) rest groups).
Proof.
  revert seen groups. induction rest as [|[k0 v0] rest IH]; intros seen groups H.
  - now rewrite app_nil_r.
  - cbn [fold_left fst snd].
    replace (seen ++ (k0, v0) :: rest)%list
      with ((seen ++ [(k0, v0)]) ++ rest)%list
      by now rewrite <- app_assoc.
    apply IH. now apply grouping_step.
Qed.

Lemma grouping_groupby_sum (keyed : list (K * Q)) :
  grouping_of cmp keyed (groupby_sum cmp keyed).
Proof.
  unfold groupby_sum. apply (grouping_fold keyed [] []).
  split; [constructor|]. split; [reflexivity|]. intros k v [].
Qed.
End Grouping.

Section GroupedRows.
Context {K : Type}.
Variable cmp : K -> K -> comparison.
Hypothesis order : key_order cmp.
Variable cell : Row -> K.

Abbreviation total_of := (fun r : Row => Total (cells r)).

Lemma fst_combine_map {R : Type} (f : R -> K) (g : R -> Q) (l : list R) :
  map fst (combine (map f l) (map g l)) = map f l.
Proof. induction l; simpl; congruence. Qed.

Lemma snd_filter_combine (k : K) (rs : list Row) :
  map snd (filter (fun kv => match cmp (fst kv) k with Eq => true | _ => false end)
             (combine (map cell rs) (map total_of rs)))
  = map total_of (rows_with cmp cell k rs).
Proof.
  unfold rows_with. induction rs as [|r rs IH]; [reflexivity|].
  cbn [map combine filter fst]. destruct (cmp (cell r) k); cbn [map snd];
    now rewrite IH.
Qed.

Lemma round_values_In (groups : list (K * Q)) (k : K) (v : Q) :
  In (k, v) (round_values 2 groups) ->
  exists raw, In (k, raw) groups /\ v = Py.round raw 2.
Proof.
  unfold round_values. rewrite in_map_iff.
  intros [[k' raw] [[= <- <-] Hin]]. eauto.
Qed.

Lemma round_values_keys (groups : list (K * Q)) :
  map fst (round_values 2 groups) = map fst groups.
Proof. unfold round_values. rewrite map_map. reflexivity. Qed.

(** One grouped mapping of [calculate_kpis], from the rows. *)
Lemma sales_by_grouped (df : DataFrame) (col : string) (d : list (K * Q)) :
  sales_by cmp df col cell = Ok d ->
  keys_observed cmp cell (rows df) d /\ values_summed cmp cell (rows df) d.
Proof.
  intros H. apply sales_by_Ok in H. subst d.
  destruct (grouping_groupby_sum cmp order
              (combine (map cell (rows df)) (map total_of (rows df))))
    as (Hs & Hk & Hv).
  split; [split; [|split]|].
  - intros k. rewrite round_values_keys, Hk, fst_combine_map. reflexivity.
  - now rewrite round_values_keys.
  - rewrite round_values_keys. now apply (ascending_NoDup cmp order).
  - intros k v Hin. apply round_values_In in Hin.
    destruct Hin as (raw & Hin & ->). apply round_Qeq.
    rewrite (Hv k raw Hin), snd_filter_combine. reflexivity.
Qed.
End GroupedRows.

Lemma calculate_kpis_groups (df : DataFrame) (k : KPIs) :
  calculate_kpis df = Ok k ->
  (keys_observed String.compare (fun r => Product_line (cells r)) (rows df) (product_sales k) /\
   values_summed String.compare (fun r => Product_line (cells r)) (rows df) (product_sales k)) /\
  (keys_observed Z.compare hour (rows df) (hour_sales k) /\
   values_summed Z.compare hour (rows df) (hour_sales k)) /\
  (keys_observed period_compare month (rows df) (monthly_sales k) /\
   values_summed period_compare month (rows df) (monthly_sales k)) /\
  (keys_observed String.compare (fun r => Customer_type (cells r)) (rows df) (customer_type_sales k) /\
   values_summed String.compare (fun r => Customer_type (cells r)) (rows df) (customer_type_sales k)) /\
  (keys_observed String.compare (fun r => Gender (cells r)) (rows df) (gender_sales k) /\
   values_summed String.compare (fun r => Gender (cells r)) (rows df) (gender_sales k)) /\
  (keys_observed String.compare (fun r => City (cells r)) (rows df) (city_sales k) /\
   values_summed String.compare (fun r => City (cells r)) (rows df) (city_sales k)).
Proof.
  unfold calculate_kpis. intros H.
  open_bind H total Htotal. open_bind H avg Havg.
  open_bind H rating Hrating. open_bind H customers Hcust.
  open_bind H ps Hps. open_bind H hs Hhs. open_bind H ms Hms.
  open_bind H cts Hcts. open_bind H gs Hgs. open_bind H cs Hcs.
  open_bind H rep Hrep. open_bind H rate Hrate.
  open_bind H apv Hapv. open_bind H pf Hpf.
  cbv zeta in H. injection H as <-. cbn [product_sales hour_sales monthly_sales
    customer_type_sales gender_sales city_sales].
  repeat apply conj;
    first [ eapply (sales_by_grouped String.compare string_key_order); eassumption
          | eapply (sales_by_grouped Z.compare Z_key_order); eassumption
          | eapply (sales_by_grouped period_compare period_key_order); eassumption ].
Qed.

(** X1. The keys of each of the six grouped mappings of [calculate_kpis]
    are exactly the values its column takes on the rows (a value that no row
    bears gets no entry), each once, in ascending order. *)
Theorem grouped_keys_are_observed_values (df : DataFrame) :
  loaded df ->
  exists k, calculate_kpis df = Ok k /\
    keys_observed String.compare (fun r => Product_line (cells r)) (rows df) (product_sales k) /\
    keys_observed Z.compare hour (rows df) (hour_sales k) /\
    keys_observed period_compare month (rows df) (monthly_sales k) /\
    keys_observed String.compare (fun r => Customer_type (cells r)) (rows df)
      (customer_type_sales k) /\
    keys_observed String.compare (fun r => Gender (cells r)) (rows df) (gender_sales k) /\
    keys_observed String.compare (fun r => City (cells r)) (rows df) (city_sales k).
Proof.
  intros Hl. destruct (calculate_kpis_returns df Hl) as [k Hk]. exists k.
  split; [assumption|].
  destruct (calculate_kpis_groups df k Hk)
    as ((? & _) & (? & _) & (? & _) & (? & _) & (? & _) & (? & _)).
  repeat (split; [assumption|]). assumption.
Qed.

Lemma grouped_keys_are_observed_values_witness :
  exists k, calculate_kpis scenario = Ok k /\
    map fst (city_sales k) = ["X"; "Y"] /\
    keys_observed String.compare (fun r => City (cells r)) (rows scenario) (city_sales k).
Proof.
  destruct (grouped_keys_are_observed_values scenario eq_refl)
    as (k & Hk & _ & _ & _ & _ & _ & Hcity).
  exists k. split; [exact Hk|]. split; [|exact Hcity].
  injection Hk as <-. reflexivity.
Defined.

(** X2. Each entry of each of the six grouped mappings of [calculate_kpis]
    holds the sum of [Total] over the rows that bear its key, in row order,
    rounded to 2 decimals. *)
Theorem grouped_values_are_rounded_sums (df : DataFrame) :
  loaded df ->
  exists k, calculate_kpis df = Ok k /\
    values_summed String.compare (fun r => Product_line (cells r)) (rows df) (product_sales k) /\
    values_summed Z.compare hour (rows df) (hour_sales k) /\
    values_summed period_compare month (rows df) (monthly_sales k) /\
    values_summed String.compare (fun r => Customer_type (cells r)) (rows df)
      (customer_type_sales k) /\
    values_summed String.compare (fun r => Gender (cells r)) (rows df) (gender_sales k) /\
    values_summed String.compare (fun r => City (cells r)) (rows df) (city_sales k).
Proof.
  intros Hl. destruct (calculate_kpis_returns df Hl) as [k Hk]. exists k.
  split; [assumption|].
  destruct (calculate_kpis_groups df k Hk)
    as ((_ & ?) & (_ & ?) & (_ & ?) & (_ & ?) & (_ & ?) & (_ & ?)).
  repeat (split; [assumption|]). assumption.
Qed.

Lemma grouped_values_are_rounded_sums_witness :
  exists k, calculate_kpis scenario = Ok k /\
    In ("Y", 50) (city_sales k) /\
    50 = Py.round (sum (map (fun r => Total (cells r))
                          (rows_with String.compare (fun r => City (cells r)) "Y"
                             (rows scenario)))) 2.
Proof.
  destruct (grouped_values_are_rounded_sums scenario eq_refl)
    as (k & Hk & _ & _ & _ & _ & _ & Hcity).
  exists k. split; [exact Hk|].
  assert (Hin : In ("Y", 50) (city_sales k)).
  { injection Hk as <-. right. left. reflexivity. }
  split; [exact Hin | exact (Hcity "Y" 50 Hin)].
Defined.

(* ------------------------------------------------------------------ *)
(** ** Customers, repeats and the mean rating *)

Lemma unique_nil_iff (s : list string) :
  length (unique String.eqb s) = 0%nat <-> s = [].
Proof.
  destruct s as [|x t]; [split; reflexivity|].
  split; [|discriminate]. unfold unique. cbn. discriminate.
Qed.

(** X3. There are never more distinct customers than transactions, and
    there is no customer exactly when there is no transaction. *)
Theorem customers_bounded_by_transactions (df : DataFrame) :
  loaded df ->
  exists k, calculate_kpis df = Ok k /\
    (total_customers k <= total_transactions k)%nat /\
    (total_customers k = 0%nat <-> total_transactions k = 0%nat).
Proof.
  intros Hl. destruct (calculate_kpis_returns df Hl) as [k Hk]. exists k.
  split; [assumption|].
  pose proof (calculate_kpis_fields df k Hk) as F. cbv zeta in F.
  destruct F as (_ & Ht & _ & _ & Hc & _). rewrite Ht, Hc.
  set (ids := map (fun r => Invoice_ID (cells r)) (rows df)).
  pose proof (duplicated_plus_unique ids) as Hsum.
  assert (Hlen : length ids = length (rows df)) by apply length_map.
  split; [lia|]. rewrite unique_nil_iff, <- Hlen.
  split; [now intros -> | apply length_zero_iff_nil].
Qed.

Lemma customers_bounded_by_transactions_witness :
  exists k, calculate_kpis scenario = Ok k /\
    (total_customers k <= total_transactions k)%nat /\
    (total_customers k = 0%nat <-> total_transactions k = 0%nat).
Proof. exact (customers_bounded_by_transactions scenario eq_refl). Defined.









(* ------------------------------------------------------------------ *)
(** ** The filter stage as a whole *)

Lemma filter_twice {A : Type} (p q : A -> bool) (l : list A) :
  filter q (filter p l) = filter (fun x => p x && q x) l.
Proof.
  induction l as [|x t IH]; [reflexivity|].
  cbn [filter]. destruct (p x); cbn [filter andb]; [destruct (q x)|]; now rewrite IH.
Qed.

Lemma filtered_df_selected (df : DataFrame) (ui : Sidebar) :
  loaded df -> range_ok ui = true ->
  filtered_df df ui
  = Ok {| columns := columns df; rows := filter (selected ui) (rows df) |}.
Proof.
  intros Hl Hr.
  destruct (filtered_df_loaded df ui Hl Hr) as (by_date & Hd & ->).
  f_equal. f_equal. unfold selected, range_ok in *.
  destruct (date_range ui) as [|lower [|upper [|more range]]]; try discriminate.
  - injection Hd as <-. apply filter_ext. intros r. reflexivity.
  - rewrite filter_date_range_rows in Hd
      by (eapply has_columns_mem; [exact Hl | column_listed]).
    injection Hd as <-. cbn [rows in_date_range]. rewrite filter_twice.
    apply filter_ext. intros r. now rewrite !andb_assoc.
Qed.

(** X6. On a loaded dataset, with a date range of no or two dates, the
    filter stage returns the dataset's columns and exactly the rows that pass
    all four filters (date between the bounds, city, customer type and gender
    among the selected ones), in their order. *)
Theorem filtered_df_keeps_selected_rows (df : DataFrame) (ui : Sidebar) :
  loaded df -> range_ok ui = true ->
  exists view,
    filtered_df df ui = Ok view /\
    columns view = columns df /\
    rows view = filter (selected ui) (rows df) /\
    forall r, In r (rows view) <->
      In r (rows df) /\
      in_date_range (date_range ui) (date r) = true /\
      In (City (cells r)) (city_filter ui) /\
      In (Customer_type (cells r)) (customer_type_filter ui) /\
      In (Gender (cells r)) (gender_filter ui).
Proof.
  intros Hl Hr. eexists. split; [now apply filtered_df_selected|].
  split; [reflexivity|]. split; [reflexivity|].
  intros r. cbn [rows]. rewrite filter_In. unfold selected.
  rewrite !andb_true_iff. unfold mem. rewrite !existsb_exists.
  split.
  - intros (Hin & ((Hd & (c & Hc & Ec)) & (t & Ht & Et)) & (g & Hg & Eg)).
    apply String.eqb_eq in Ec, Et, Eg. subst. tauto.
  - intros (Hin & Hd & Hc & Ht & Hg).
    repeat split; try assumption;
      eexists; (split; [eassumption | apply String.eqb_refl]).
Qed.

Lemma filtered_df_keeps_selected_rows_witness :
  exists view,
    filtered_df scenario
      (mk_sidebar [mk_date 2024 1 1; mk_date 2024 1 1] ["X"; "Y"] ["Member"] ["Male"])
      = Ok view /\
    rows view = firstn 1 (rows scenario).
Proof.
  destruct (filtered_df_keeps_selected_rows scenario
              (mk_sidebar [mk_date 2024 1 1; mk_date 2024 1 1] ["X"; "Y"] ["Member"] ["Male"])
              eq_refl eq_refl) as (view & Hv & _ & Hrows & _).
  exists view. split; [exact Hv | exact Hrows].
Defined.

(** X7. A date range of one date (the widget in mid-selection), or of more
    than two, stops the script with a [ValueError] at the unpacking of the
    range, whatever the dataset and the other selections. *)
Theorem one_date_range_raises (df : DataFrame) (ui : Sidebar) :
  range_ok ui = false ->
  exists msg,
    filtered_df df ui = Raise (ValueError msg) /\
    filtered_kpi_data df ui = Raise (ValueError msg).
Proof.
  intros Hr. unfold filtered_kpi_data, filtered_df, filter_date_range, range_ok in *.
  destruct (date_range ui) as [|lower [|upper [|more range]]]; try discriminate;
    eexists; split; reflexivity.
Qed.

Lemma one_date_range_raises_witness :
  exists msg,
    filtered_df scenario (mk_sidebar [mk_date 2024 1 1] ["X"] ["Member"] ["Male"])
      = Raise (ValueError msg) /\
    filtered_kpi_data scenario (mk_sidebar [mk_date 2024 1 1] ["X"] ["Member"] ["Male"])
      = Raise (ValueError msg).
Proof.
  exact (one_date_range_raises scenario
           (mk_sidebar [mk_date 2024 1 1] ["X"] ["Member"] ["Male"]) eq_refl).
Defined.

Lemma unique_from_In (x : string) (s seen : list string) :
  In x (unique_from String.eqb seen s) ->
  In x s /\ mem String.eqb x seen = false.
Proof.
  revert seen. induction s as [|y t IH]; intros seen; cbn [unique_from];
    [intros []|].
  destruct (mem String.eqb y seen) eqn:E.
  - intros H. apply IH in H. destruct H. split; [now right | assumption].
  - intros [<- | H]; [split; [now left | assumption]|].
    apply IH in H. destruct H as [Hin Hm]. split; [now right|].
    cbn [mem existsb] in Hm. apply orb_false_iff in Hm. apply Hm.
Qed.

Lemma unique_from_NoDup (s seen : list string) :
  NoDup (unique_from String.eqb seen s).
Proof.
  revert seen. induction s as [|y t IH]; intros seen; cbn [unique_from];
    [constructor|].
  destruct (mem String.eqb y seen); [apply IH|].
  constructor; [|apply IH].
  intros H. apply unique_from_In in H. destruct H as [_ H].
  cbn [mem existsb] in H. now rewrite String.eqb_refl in H.
Qed.

(** A part of a column has no more distinct values than the column. *)
Lemma unique_length_incl (s1 s2 : list string) :
  incl s1 s2 ->
  (length (unique String.eqb s1) <= length (unique String.eqb s2))%nat.
Proof.
  intros Hincl. apply NoDup_incl_length; [apply unique_from_NoDup|].
  intros x Hx. apply unique_from_In in Hx. destruct Hx as [Hx _].
  pose proof (unique_complete x s2 (Hincl x Hx)) as Hm.
  unfold mem in Hm. apply existsb_exists in Hm.
  destruct Hm as (y & Hy & E). apply String.eqb_eq in E. now subst.
Qed.

(** X8. Filtering never adds to the counts: the filtered view has at most
    as many transactions and at most as many distinct customers as the
    loaded dataset. *)
Theorem filtering_never_adds (df : DataFrame) (ui : Sidebar) :
  loaded df -> range_ok ui = true ->
  exists k kf,
    calculate_kpis df = Ok k /\ filtered_kpi_data df ui = Ok kf /\
    (total_transactions kf <= total_transactions k)%nat /\
    (total_customers kf <= total_customers k)%nat.
Proof.
  intros Hl Hr. destruct (calculate_kpis_returns df Hl) as [k Hk].
  pose proof (filtered_df_selected df ui Hl Hr) as Hv.
  set (view := {| columns := columns df; rows := filter (selected ui) (rows df) |}) in *.
  assert (Hl' : loaded view) by exact Hl.
  destruct (calculate_kpis_returns view Hl') as [kf Hkf].
  exists k, kf. split; [assumption|].
  split; [unfold filtered_kpi_data; now rewrite Hv|].
  pose proof (calculate_kpis_fields df k Hk) as F. cbv zeta in F.
  destruct F as (_ & Ht & _ & _ & Hc & _).
  pose proof (calculate_kpis_fields view kf Hkf) as F. cbv zeta in F.
  destruct F as (_ & Htf & _ & _ & Hcf & _).
  rewrite Ht, Htf, Hc, Hcf. cbn [view rows]. split.
  - apply filter_length_le.
  - apply unique_length_incl. intros x Hx. apply in_map_iff in Hx.
    destruct Hx as (r & <- & Hr'). apply filter_In in Hr'.
    apply (in_map (fun r => Invoice_ID (cells r))). apply Hr'.
Qed.

Lemma filtering_never_adds_witness :
  exists k kf,
    calculate_kpis scenario = Ok k /\
    filtered_kpi_data scenario (mk_sidebar [] ["Y"] ["Normal"] ["Female"]) = Ok kf /\
    (total_transactions kf <= total_transactions k)%nat /\
    (total_customers kf <= total_customers k)%nat.
Proof.
  exact (filtering_never_adds scenario (mk_sidebar [] ["Y"] ["Normal"] ["Female"])
           eq_refl eq_refl).
Defined.

(** X9. On a frame without columns, which is what [load_data] returns
    when it rejects its source, the script does not reach the aggregator: the
    first column lookup of the filter stage raises [KeyError], on ['City']
    when no date range is set and on ['date'] when one is. *)
Theorem script_stops_without_columns (df : DataFrame) (ui : Sidebar) :
  columns df = [] ->
  (date_range ui = [] -> filtered_kpi_data df ui = Raise (KeyError "City")) /\
  (forall lower upper, date_range ui = [lower; upper] ->
     filtered_kpi_data df ui = Raise (KeyError "date")).
Proof.
  intros Hc. unfold filtered_kpi_data, filtered_df, filter_date_range,
    multiselect_args, getitem. rewrite Hc. split.
  - intros ->. reflexivity.
  - intros lower upper ->. reflexivity.
Qed.

Lemma script_stops_without_columns_witness :
  filtered_kpi_data
    (load_data fixture_hms fixture_date (Some workbook_without_rating))
    (mk_sidebar [] ["X"] ["Member"] ["Male"]) = Raise (KeyError "City") /\
  filtered_kpi_data
    (load_data fixture_hms fixture_date None)
    (mk_sidebar [mk_date 2024 1 1; mk_date 2024 1 2] ["X"] ["Member"] ["Male"])
    = Raise (KeyError "date").
Proof.
  destruct (script_stops_without_columns
              (load_data fixture_hms fixture_date (Some workbook_without_rating))
              (mk_sidebar [] ["X"] ["Member"] ["Male"]) eq_refl) as [Hcity _].
  destruct (script_stops_without_columns
              (load_data fixture_hms fixture_date None)
              (mk_sidebar [mk_date 2024 1 1; mk_date 2024 1 2] ["X"] ["Member"] ["Male"])
              eq_refl) as [_ Hdate].
  split; [exact (Hcity eq_refl) | exact (Hdate _ _ eq_refl)].
Defined.

(* ------------------------------------------------------------------ *)
(** ** The loader: rejection, all or nothing, and the rows past the cap *)

Section LoaderOutcomes.
Variable to_datetime_hms : string -> option (Z * Z * Z).
Variable to_datetime_date : string -> option datetime_date.

Abbreviation loader_try := (load_data_try to_datetime_hms to_datetime_date).
Abbreviation loader := (load_data to_datetime_hms to_datetime_date).
Abbreviation derive_row := (derive to_datetime_hms to_datetime_date).
Abbreviation row_parses := (parses to_datetime_hms to_datetime_date).
Abbreviation sales_sheet := (find (fun entry : string * Sheet => String.eqb (fst entry) "Sales")).
Abbreviation columns_present sheet :=
  (forallb (fun col => mem String.eqb col (sheet_columns sheet)) required_columns).

Lemma derive_parses (r : SheetRow) (row : Row) :
  derive_row r = Ok row -> row_parses r = true /\ cells row = r.
Proof.
  unfold derive, parses.
  destruct (to_datetime_hms (Time r)) as [[[h m] sec]|]; [|discriminate].
  destruct (to_datetime_date (Date r)) as [d|]; [|discriminate].
  intros [= <-]. split; reflexivity.
Qed.

Lemma derive_fails (r : SheetRow) :
  row_parses r = false -> exists msg, derive_row r = Raise (ValueError msg).
Proof.
  unfold derive, parses.
  destruct (to_datetime_hms (Time r)) as [[[h m] sec]|]; [|eauto].
  destruct (to_datetime_date (Date r)) as [d|]; [discriminate | eauto].
Qed.

Lemma derive_succeeds (r : SheetRow) :
  row_parses r = true -> exists row, derive_row r = Ok row.
Proof.
  unfold derive, parses.
  destruct (to_datetime_hms (Time r)) as [[[h m] sec]|]; [|discriminate].
  destruct (to_datetime_date (Date r)) as [d|]; [eauto | discriminate].
Qed.

(** One row that does not parse fails the derivation of the whole sheet. *)
Lemma traverse_derive_fails (l : list SheetRow) :
  forallb row_parses l = false ->
  exists msg, traverse derive_row l = Raise (ValueError msg).
Proof.
  induction l as [|r t IH]; [discriminate|].
  cbn [forallb traverse]. intros H.
  destruct (row_parses r) eqn:Er.
  - cbn [andb] in H. destruct (IH H) as [msg Hmsg].
    destruct (derive_succeeds r Er) as [row ->]. cbn [Py.bind].
    rewrite Hmsg. cbn [Py.bind]. eauto.
  - destruct (derive_fails r Er) as [msg ->]. cbn [Py.bind]. eauto.
Qed.

Lemma traverse_derive_Ok (l : list SheetRow) (loaded_rows : list Row) :
  traverse derive_row l = Ok loaded_rows ->
  forallb row_parses l = true /\
  map cells loaded_rows = l /\
  forall row, In row loaded_rows -> derive_row (cells row) = Ok row.
Proof.
  revert loaded_rows. induction l as [|r t IH]; intros loaded_rows H.
  - injection H as <-. repeat split. intros row [].
  - cbn [traverse] in H. apply bind_Ok in H. destruct H as (row & Hrow & H).
    apply bind_Ok in H. destruct H as (rest & Hrest & H). injection H as <-.
    destruct (IH rest Hrest) as (Hp & Hc & Hd).
    destruct (derive_parses r row Hrow) as [Hpr Hcr].
    cbn [forallb map]. rewrite Hpr, Hp, Hcr, Hc. repeat split.
    intros row' [<- | Hin]; [now rewrite Hcr | now apply Hd].
Qed.

(** X10. [load_data] falls back to [pd.DataFrame()] when the file is
    absent, when the workbook has no sheet named [Sales], and when one of
    the rows read (the first 1000) has a time or a date that does not parse:
    one such row rejects the whole dataset. *)
Theorem load_rejects_unreadable_source (io : option Workbook) :
  io = None \/
  (exists book, io = Some book /\ sales_sheet book = None) \/
  (exists book name sheet,
     io = Some book /\ sales_sheet book = Some (name, sheet) /\
     forallb row_parses (firstn 1000 (sheet_rows sheet)) = false) ->
  loader io = DataFrame_new.
Proof.
  unfold load_data, load_data_try, read_excel.
  intros [-> | [(book & -> & Hs) | (book & name & sheet & -> & Hs & Hbad)]].
  - reflexivity.
  - now rewrite Hs.
  - rewrite Hs. cbn [Py.bind sheet_columns sheet_rows].
    destruct (columns_present sheet); [|reflexivity].
    destruct (traverse_derive_fails _ Hbad) as [msg ->]. reflexivity.
Qed.

(** X11. [load_data] loads all or nothing: it returns either
    [pd.DataFrame()] or a frame with the loaded columns whose rows are the
    first 1000 rows of the sheet [Sales], all of them and in order, each with
    the hour, date and month derived from its own time and date. *)
Theorem load_is_all_or_nothing (io : option Workbook) :
  loader io = DataFrame_new \/
  exists book name sheet,
    io = Some book /\ sales_sheet book = Some (name, sheet) /\
    columns_present sheet = true /\
    forallb row_parses (firstn 1000 (sheet_rows sheet)) = true /\
    columns (loader io) = loaded_columns /\
    map cells (rows (loader io)) = firstn 1000 (sheet_rows sheet) /\
    forall row, In row (rows (loader io)) -> derive_row (cells row) = Ok row.
Proof.
  unfold load_data, load_data_try, read_excel.
  destruct io as [book|]; [|now left].
  destruct (sales_sheet book) as [[name sheet]|] eqn:Hs; [|now left].
  cbn [Py.bind sheet_columns sheet_rows].
  destruct (columns_present sheet) eqn:Hc; [|now left].
  destruct (traverse derive_row (firstn 1000 (sheet_rows sheet)))
    as [loaded_rows|e] eqn:Ht; [|now left].
  right. exists book, name, sheet. cbn [Py.bind columns rows].
  destruct (traverse_derive_Ok _ _ Ht) as (Hp & Hcells & Hd).
  repeat split; assumption.
Qed.

(** X12. The rows past the 1000th are never read: two sheets with the same
    columns and the same first 1000 rows load the same dataset, so a row
    that does not parse there does not reject the dataset. *)
Theorem rows_past_the_cap_are_not_read
  (book1 book2 : Workbook) (name1 name2 : string) (sheet1 sheet2 : Sheet) :
  sales_sheet book1 = Some (name1, sheet1) ->
  sales_sheet book2 = Some (name2, sheet2) ->
  sheet_columns sheet1 = sheet_columns sheet2 ->
  firstn 1000 (sheet_rows sheet1) = firstn 1000 (sheet_rows sheet2) ->
  loader (Some book1) = loader (Some book2).
Proof.
  intros H1 H2 Hc Hr. unfold load_data, load_data_try, read_excel.
  rewrite H1, H2. cbn [Py.bind sheet_columns sheet_rows]. now rewrite Hc, Hr.
Qed.

(** X13. A sheet [Sales] with every required column and no row loads as a
    dataset with the loaded columns and no row; on it every multiselect
    defaults to the empty selection, and the untouched dashboard shows the
    default KPIs instead of stopping. *)
Theorem empty_sheet_shows_defaults (book : Workbook) (name : string) (sheet : Sheet) :
  sales_sheet book = Some (name, sheet) ->
  columns_present sheet = true ->
  sheet_rows sheet = [] ->
  loader (Some book) = {| columns := loaded_columns; rows := [] |} /\
  untouched (loader (Some book)) = Ok (mk_sidebar [] [] [] []) /\
  exists k,
    filtered_kpi_data (loader (Some book)) (mk_sidebar [] [] [] []) = Ok k /\
    at_defaults k.
Proof.
  intros Hs Hc Hr.
  assert (Hload : loader (Some book) = {| columns := loaded_columns; rows := [] |}).
  { unfold load_data, load_data_try, read_excel.
    rewrite Hs. cbn [Py.bind sheet_columns sheet_rows]. now rewrite Hc, Hr. }
  rewrite Hload. split; [reflexivity|]. split; [reflexivity|].
  eexists. split; [reflexivity|]. unfold at_defaults. repeat split.
Qed.
End LoaderOutcomes.

Lemma load_rejects_unreadable_source_witness :
  load_data fixture_hms fixture_date (Some workbook_with_early_bad_row) = DataFrame_new.
Proof.
  apply (load_rejects_unreadable_source fixture_hms fixture_date).
  right. right.
  exists workbook_with_early_bad_row, "Sales",
    (mk_sheet required_columns
       [fixture_sheet_row "I1"; fixture_bad_row; fixture_sheet_row "I2"]).
  repeat split.
Defined.

Lemma rows_past_the_cap_are_not_read_witness :
  load_data fixture_hms fixture_date (Some workbook_with_late_bad_row)
  = load_data fixture_hms fixture_date (Some (workbook_of_rows 1000)) /\
  len (load_data fixture_hms fixture_date (Some workbook_with_late_bad_row)) = 1000%nat.
Proof.
  assert (H : load_data fixture_hms fixture_date (Some workbook_with_late_bad_row)
              = load_data fixture_hms fixture_date (Some (workbook_of_rows 1000))).
  { apply (rows_past_the_cap_are_not_read fixture_hms fixture_date
             workbook_with_late_bad_row (workbook_of_rows 1000) "Sales" "Sales"
             (mk_sheet required_columns
                (repeat (fixture_sheet_row "I1") 1000 ++ [fixture_bad_row])%list)
             (mk_sheet required_columns (repeat (fixture_sheet_row "I1") 1000)));
      reflexivity. }
  split; [exact H|]. rewrite H. vm_compute. reflexivity.
Defined.

Lemma empty_sheet_shows_defaults_witness :
  load_data fixture_hms fixture_date (Some (workbook_of_rows 0))
  = {| columns := loaded_columns; rows := [] |} /\
  untouched (load_data fixture_hms fixture_date (Some (workbook_of_rows 0)))
  = Ok (mk_sidebar [] [] [] []) /\
  exists k,
    filtered_kpi_data (load_data fixture_hms fixture_date (Some (workbook_of_rows 0)))
      (mk_sidebar [] [] [] []) = Ok k /\
    at_defaults k.
Proof.
  exact (empty_sheet_shows_defaults fixture_hms fixture_date
           (workbook_of_rows 0) "Sales" (mk_sheet required_columns [])
           eq_refl eq_refl eq_refl).
Defined.

(* ------------------------------------------------------------------ *)
(** ** The KPI file: [load_kpi_data] *)

Lemma has_colon_space_tail (c : ascii) (t : string) :
  has_colon_space t -> has_colon_space (String c t).
Proof. intros (before & after & ->). now exists (String c before), after. Qed.

(** A text without [": "] is a single part. *)
Lemma split_without_separator (s : string) :
  ~ has_colon_space s -> split_colon_space s = [s].
Proof.
  induction s as [|c t IH]; intros Hno; [reflexivity|].
  cbn [split_colon_space].
  rewrite IH by (intros H; apply Hno; now apply has_colon_space_tail).
  destruct t as [|c' rest]; [reflexivity|].
  destruct (Ascii.eqb c ":" && Ascii.eqb c' " ")%bool eqn:E; [|reflexivity].
  apply andb_true_iff in E. destruct E as [Ec Ec'].
  apply Ascii.eqb_eq in Ec, Ec'. subst. exfalso. apply Hno.
  now exists EmptyString, rest.
Qed.

Section Dict.
Context {V : Type}.

Lemma dict_get_setitem (name k : string) (v : V) (d : dict V) :
  dict_get name (dict_setitem k v d)
  = if String.eqb name k then Some v else dict_get name d.
Proof.
  induction d as [|[k' v'] t IH]; cbn [dict_setitem dict_get].
  - reflexivity.
  - destruct (String.eqb k k') eqn:Ek; cbn [dict_get].
    + apply String.eqb_eq in Ek. subst k'.
      destruct (String.eqb name k); reflexivity.
    + destruct (String.eqb name k') eqn:En.
      * apply String.eqb_eq in En. subst k'.
        rewrite String.eqb_sym, Ek. reflexivity.
      * exact IH.
Qed.

Lemma dict_setitem_keys (k : string) (v : V) (d : dict V) :
  map fst (dict_setitem k v d)
  = if mem String.eqb k (map fst d) then map fst d else (map fst d ++ [k])%list.
Proof.
  induction d as [|[k' v'] t IH]; cbn [dict_setitem map fst mem existsb app].
  - reflexivity.
  - destruct (String.eqb k k') eqn:Ek; cbn [map fst orb]; [reflexivity|].
    rewrite IH. unfold mem. destruct (existsb (String.eqb k) (map fst t)); reflexivity.
Qed.

Lemma dict_setitem_NoDup (k : string) (v : V) (d : dict V) :
  NoDup (map fst d) -> NoDup (map fst (dict_setitem k v d)).
Proof.
  intros Hnd. rewrite dict_setitem_keys.
  destruct (mem String.eqb k (map fst d)) eqn:E; [assumption|].
  apply NoDup_app; [assumption | repeat constructor; intros [] |].
  intros x Hx [Hk | []]. subst x.
  assert (Hm : mem String.eqb k (map fst d) = true).
  { unfold mem. apply existsb_exists. exists k. split; [assumption|].
    apply String.eqb_refl. }
  congruence.
Qed.

Lemma find_app {A : Type} (f : A -> bool) (l1 l2 : list A) :
  find f (l1 ++ l2) = match find f l1 with Some x => Some x | None => find f l2 end.
Proof.
  induction l1 as [|x t IH]; [reflexivity|].
  cbn [app find]. destruct (f x); [reflexivity | exact IH].
Qed.

(** Storing the entries one after the other: the last amount of a name
    wins, and a name without entry keeps what the dict held. *)
Lemma dict_get_fold (name : string) (entries : list (string * V)) (d : dict V) :
  dict_get name (fold_left (fun d e => dict_setitem (fst e) (snd e) d) entries d)
  = match last_amount name entries with
    | Some v => Some v
    | None => dict_get name d
    end.
Proof.
  revert d. induction entries as [|[k v] rest IH]; intros d; [reflexivity|].
  cbn [fold_left fst snd]. rewrite IH. unfold last_amount.
  cbn [rev]. rewrite find_app. 
  destruct (find (fun e => String.eqb name (fst e)) (rev rest)) as [e|];
    [reflexivity|].
  cbn [find fst option_map]. rewrite dict_get_setitem.
  destruct (String.eqb name k); reflexivity.
Qed.

Lemma fold_setitem_NoDup (entries : list (string * V)) (d : dict V) :
  NoDup (map fst d) ->
  NoDup (map fst (fold_left (fun d e => dict_setitem (fst e) (snd e) d) entries d)).
Proof.
  revert d. induction entries as [|[k v] rest IH]; intros d Hd; [assumption|].
  cbn [fold_left]. apply IH. now apply dict_setitem_NoDup.
Qed.
End Dict.

Section KpiFileProperties.
Variable strip : string -> string.
Variable float_value : Type.
Variable float : string -> option float_value.

Abbreviation entry_of := (line_entry strip float).
Abbreviation read_one := (read_line strip float_value float).
Abbreviation read_all := (read_lines strip float_value float).
Abbreviation kpi_loader := (load_kpi_data strip float_value float).
Abbreviation store := (fun (d : dict float_value) (e : string * float_value) =>
                         dict_setitem (fst e) (snd e) d).

Lemma read_line_entry (d : dict float_value) (line : string) :
  match entry_of line with
  | Some e => read_one d line = Ok (store d e)
  | None => exists msg, read_one d line = Raise (ValueError msg)
  end.
Proof.
  unfold line_entry, read_line.
  destruct (split_colon_space (strip line)) as [|name [|sales [|more parts]]]; eauto.
  destruct (float sales); eauto.
Qed.

Lemma read_lines_entries (lines : list string) (entries : list (string * float_value))
  (d : dict float_value) :
  map entry_of lines = map Some entries ->
  read_all d lines = Ok (fold_left store entries d).
Proof.
  revert entries d. induction lines as [|line rest IH]; intros [|e entries] d H;
    try discriminate; [reflexivity|].
  cbn [map] in H. injection H as He Hrest.
  cbn [read_lines fold_left]. pose proof (read_line_entry d line) as Hline.
  rewrite He in Hline. rewrite Hline. cbn [Py.bind]. now apply IH.
Qed.

Lemma read_lines_bad_line (lines : list string) (line : string) (d : dict float_value) :
  In line lines -> entry_of line = None ->
  exists msg, read_all d lines = Raise (ValueError msg).
Proof.
  revert d. induction lines as [|first rest IH]; intros d Hin Hbad; [contradiction|].
  cbn [read_lines]. pose proof (read_line_entry d first) as Hfirst.
  destruct (entry_of first) as [e|] eqn:Ee.
  - rewrite Hfirst. cbn [Py.bind]. destruct Hin as [-> | Hin]; [congruence|].
    now apply IH.
  - destruct Hfirst as [msg ->]. cbn [Py.bind]. eauto.
Qed.

Lemma read_lines_Ok (lines : list string) (d filled : dict float_value) :
  read_all d lines = Ok filled ->
  exists entries, map entry_of lines = map Some entries.
Proof.
  revert d. induction lines as [|line rest IH]; intros d H.
  - now exists [].
  - cbn [read_lines] in H. pose proof (read_line_entry d line) as Hline.
    destruct (entry_of line) as [e|] eqn:Ee.
    + rewrite Hline in H. cbn [Py.bind] in H.
      destruct (IH _ H) as [entries He]. exists (e :: entries).
      cbn [map]. now rewrite Ee, He.
    + destruct Hline as [msg Hmsg]. rewrite Hmsg in H. discriminate.
Qed.

(** X14. A line of the KPI file that, once stripped, holds no [": "] makes
    [load_kpi_data] raise a [ValueError] (the unpacking of the split line),
    whatever the other lines: only the absence of the file is caught. *)
Theorem kpi_line_without_separator_raises (lines : list string) (line : string) :
  In line lines ->
  ~ has_colon_space (strip line) ->
  exists msg, kpi_loader (Some lines) = Raise (ValueError msg).
Proof.
  intros Hin Hno.
  assert (Hbad : entry_of line = None).
  { unfold line_entry. now rewrite split_without_separator. }
  destruct (read_lines_bad_line lines line [] Hin Hbad) as [msg Hmsg].
  exists msg. unfold load_kpi_data. now rewrite Hmsg.
Qed.

(** X15. [load_kpi_data] returns exactly when every line of the file splits
    at [": "] into a product and an amount that reads as a float.  Then
    [product_sales] holds one entry for each product of the file, with the
    amount of the last line of that product, and [hour_sales] is empty. *)
Theorem kpi_file_last_line_wins (lines : list string) :
  (forall entries,
     map entry_of lines = map Some entries ->
     exists d,
       kpi_loader (Some lines) = Ok d /\
       (forall name,
          dict_get name (kpi_product_sales float_value d) = last_amount name entries) /\
       NoDup (map fst (kpi_product_sales float_value d)) /\
       kpi_hour_sales float_value d = []) /\
  (forall d,
     kpi_loader (Some lines) = Ok d ->
     exists entries, map entry_of lines = map Some entries).
Proof.
  split.
  - intros entries He. unfold load_kpi_data.
    rewrite (read_lines_entries lines entries [] He). cbn [Py.bind].
    eexists. split; [reflexivity|]. cbn [kpi_product_sales kpi_hour_sales].
    split; [|split; [|reflexivity]].
    + intros name. rewrite dict_get_fold.
      destruct (last_amount name entries); reflexivity.
    + apply fold_setitem_NoDup. constructor.
  - intros d H. unfold load_kpi_data in H.
    apply bind_Ok in H. destruct H as (filled & Hf & _).
    now apply (read_lines_Ok lines [] filled).
Qed.

Lemma read_lines_raises (lines : list string) (d : dict float_value) (e : exn) :
  read_all d lines = Raise e -> exists msg, e = ValueError msg.
Proof.
  revert d. induction lines as [|line rest IH]; intros d H; [discriminate|].
  cbn [read_lines] in H. pose proof (read_line_entry d line) as Hline.
  destruct (entry_of line) as [entry|].
  - rewrite Hline in H. cbn [Py.bind] in H. now apply (IH _ H).
  - destruct Hline as [msg Hmsg]. rewrite Hmsg in H. cbn [Py.bind] in H.
    injection H as <-. eauto.
Qed.

(** X16. An absent KPI file is tolerated: [load_kpi_data] returns with both
    mappings empty.  Whatever the file holds, [hour_sales] is empty in what
    it returns, and the only exception it lets out is the [ValueError] of a
    line of a file that is there. *)
Theorem kpi_file_absent_or_not (file : option (list string)) :
  load_kpi_data strip float_value float None = Ok (mk_kpi_data float_value [] []) /\
  (forall d, load_kpi_data strip float_value float file = Ok d ->
     kpi_hour_sales float_value d = []) /\
  (forall e, load_kpi_data strip float_value float file = Raise e ->
     file <> None /\ exists msg, e = ValueError msg).
Proof.
  split; [reflexivity|]. split.
  - intros d H. unfold load_kpi_data in H.
    apply bind_Ok in H. destruct H as (filled & _ & H). now injection H as <-.
  - intros e H. unfold load_kpi_data in H.
    destruct file as [lines|]; [|discriminate]. split; [discriminate|].
    destruct (read_lines strip float_value float [] lines) as [filled|e'] eqn:E;
      cbn [Py.bind] in H; [discriminate|].
    injection H as <-. now apply (read_lines_raises lines [] e').
Qed.
End KpiFileProperties.

Lemma kpi_line_without_separator_raises_witness :
  exists msg,
    load_kpi_data fixture_strip Z fixture_float
      (Some ["Food: 12"; "Home 7"; "Food: 30"]) = Raise (ValueError msg).
Proof.
  apply (kpi_line_without_separator_raises fixture_strip Z fixture_float
           ["Food: 12"; "Home 7"; "Food: 30"] "Home 7").
  - right. left. reflexivity.
  - intros (before & after & H). cbn in H.
    destruct before as [|b1 [|b2 [|b3 [|b4 [|b5 before]]]]]; cbn in H;
      try discriminate;
      repeat (destruct before as [|? before]; cbn in H; try discriminate).
Defined.

Lemma kpi_file_last_line_wins_witness :
  exists d,
    load_kpi_data fixture_strip Z fixture_float
      (Some ["Food: 12"; "Home: 7"; "Food: 30"]) = Ok d /\
    dict_get "Food" (kpi_product_sales Z d) = Some 30%Z /\
    dict_get "Home" (kpi_product_sales Z d) = Some 7%Z /\
    dict_get "Toys" (kpi_product_sales Z d) = None /\
    kpi_hour_sales Z d = [].
Proof.
  destruct (kpi_file_last_line_wins fixture_strip Z fixture_float
              ["Food: 12"; "Home: 7"; "Food: 30"]) as [Hreturns _].
  destruct (Hreturns [("Food", 12%Z); ("Home", 7%Z); ("Food", 30%Z)] eq_refl)
    as (d & Hd & Hget & _ & Hhour).
  exists d. split; [exact Hd|].
  split; [exact (Hget "Food")|]. split; [exact (Hget "Home")|].
  split; [exact (Hget "Toys") | exact Hhour].
Defined.

(* ------------------------------------------------------------------ *)
(** ** Blank cells: what [calculate_kpis] makes of them *)

Lemma blank_getitem {A : Type} (df : WithBlanks.DataFrame) (col : string)
  (cell : Row -> A) :
  blank_loaded df -> In col loaded_columns ->
  WithBlanks.getitem df col cell
  = Ok (map (WithBlanks.cell_of col cell) (WithBlanks.rows df)).
Proof.
  intros Hl Hin. unfold WithBlanks.getitem, blank_loaded in *.
  rewrite forallb_forall in Hl. now rewrite (Hl col Hin).
Qed.

Lemma blank_sales_by {K : Type} (cmp : K -> K -> comparison)
  (df : WithBlanks.DataFrame) (col : string) (cell : Row -> K) :
  blank_loaded df -> In col loaded_columns ->
  WithBlanks.sales_by cmp df col cell
  = Ok (round_values 2
          (groupby_sum cmp
             (keyed_dropna
                (combine (map (WithBlanks.cell_of col cell) (WithBlanks.rows df))
                   (map (WithBlanks.cell_of "Total" (fun r => Total (cells r)))
                      (WithBlanks.rows df)))))).
Proof.
  intros Hl Hin. unfold WithBlanks.sales_by.
  rewrite (blank_getitem df col cell Hl Hin). cbn [Py.bind].
  rewrite (blank_getitem df "Total" _ Hl) by column_listed. reflexivity.
Qed.

(** On a frame with the loaded columns, blank cells or not,
    [calculate_kpis] returns; its sums and its groups, read off the rows. *)
Lemma blank_calculate_kpis (df : WithBlanks.DataFrame) :
  blank_loaded df ->
  let rs := WithBlanks.rows df in
  let totals := map (WithBlanks.cell_of "Total" (fun r => Total (cells r))) rs in
  let grouped {K : Type} (cmp : K -> K -> comparison) (col : string) (cell : Row -> K) :=
    round_values 2
      (groupby_sum cmp (keyed_dropna (combine (map (WithBlanks.cell_of col cell) rs) totals))) in
  exists k, WithBlanks.calculate_kpis df = Ok k /\
    total_sales k = Py.round (sum (dropna totals)) 2 /\
    total_transactions k = length rs /\
    avg_rating k =
      option_map (fun m => Py.round m 1)
        (mean (dropna (map (WithBlanks.cell_of "Rating" (fun r => Rating (cells r))) rs))) /\
    product_sales k = grouped String.compare "Product line" (fun r => Product_line (cells r)) /\
    hour_sales k = grouped Z.compare "hour" hour /\
    monthly_sales k = grouped period_compare "month" month /\
    customer_type_sales k = grouped String.compare "Customer_type" (fun r => Customer_type (cells r)) /\
    gender_sales k = grouped String.compare "Gender" (fun r => Gender (cells r)) /\
    city_sales k = grouped String.compare "City" (fun r => City (cells r)).
Proof.
  intros Hl. cbv zeta.
  unfold WithBlanks.calculate_kpis, WithBlanks.total_customers_of,
    WithBlanks.repeat_customers_of, WithBlanks.len.
  rewrite (blank_getitem df "Total" _ Hl) by column_listed. cbn [Py.bind].
  rewrite (blank_getitem df "Rating" _ Hl) by column_listed.
  rewrite (blank_getitem df "Invoice ID" _ Hl) by column_listed.
  rewrite !blank_sales_by by (assumption || column_listed).
  cbn [Py.bind].
  set (customers := length (unique (cell_eqb String.eqb) _)).
  destruct (0 <? length (WithBlanks.rows df))%nat eqn:En;
    [rewrite truediv_guarded by assumption|];
    (destruct (0 <? customers)%nat eqn:Ec;
     [rewrite !truediv_guarded by assumption|]);
    cbn [Py.bind]; eexists; (split; [reflexivity|]);
    cbn [total_sales total_transactions avg_rating product_sales hour_sales
         monthly_sales customer_type_sales gender_sales city_sales];
    repeat split.
Qed.

(** The amounts that [groupby] keeps are those of the rows with a key. *)
Lemma keyed_dropna_amounts {K : Type} (col : string) (cell : Row -> K)
  (rs : list WithBlanks.BlankRow) :
  sum (map snd
         (keyed_dropna
            (combine (map (WithBlanks.cell_of col cell) rs)
               (map (WithBlanks.cell_of "Total" (fun r => Total (cells r))) rs))))
  == sum (dropna
            (map (WithBlanks.cell_of "Total" (fun r => Total (cells r)))
               (filter (fun r => negb (mem String.eqb col (WithBlanks.blank r))) rs))).
Proof.
  induction rs as [|r rs IH]; [reflexivity|].
  cbn [map combine filter].
  set (amount := WithBlanks.cell_of "Total" (fun r => Total (cells r))) in *.
  unfold WithBlanks.cell_of.
  destruct (mem String.eqb col (WithBlanks.blank r)); cbn [negb].
  - exact IH.
  - cbn [map dropna].
    destruct (amount r) as [x|]; cbn [keyed_dropna map snd];
      rewrite ?sum_cons, IH; lra.
Qed.

(** A rounded grouping against the rounded sum of its amounts. *)
Lemma groupby_within_rounding {K : Type} (cmp : K -> K -> comparison)
  (keyed : list (K * Q)) (amount : Q) :
  sum (map snd keyed) == amount ->
  within_rounding (round_values 2 (groupby_sum cmp keyed)) (Py.round amount 2).
Proof.
  intros Hsum. unfold within_rounding. rewrite length_round_values.
  set (groups := groupby_sum cmp keyed).
  pose proof (sum_round_values_close groups) as H1.
  pose proof (round2_close amount) as H2.
  pose proof (sum_values_groupby cmp keyed) as H3. fold groups in H3.
  apply Qabs_Qle_condition in H1. apply Qabs_Qle_condition in H2.
  apply Qabs_Qle_condition. split; lra.
Qed.

Lemma filter_filled (df : WithBlanks.DataFrame) (col : string) :
  column_filled df col ->
  filter (fun r => negb (mem String.eqb col (WithBlanks.blank r))) (WithBlanks.rows df)
  = WithBlanks.rows df.
Proof.
  intros H. apply filter_all. intros r Hr. now rewrite (H r Hr).
Qed.

Lemma grouped_sums_to_filled_total {K : Type} (cmp : K -> K -> comparison)
  (df : WithBlanks.DataFrame) (col : string) (cell : Row -> K) (k : KPIs) :
  total_sales k
  = Py.round (sum (dropna (map (WithBlanks.cell_of "Total" (fun r => Total (cells r)))
                             (WithBlanks.rows df)))) 2 ->
  sums_to_filled_total df col k
    (round_values 2
       (groupby_sum cmp
          (keyed_dropna
             (combine (map (WithBlanks.cell_of col cell) (WithBlanks.rows df))
                (map (WithBlanks.cell_of "Total" (fun r => Total (cells r)))
                   (WithBlanks.rows df)))))).
Proof.
  intros Htotal.
  assert (H : within_rounding
                (round_values 2
                   (groupby_sum cmp
                      (keyed_dropna
                         (combine (map (WithBlanks.cell_of col cell) (WithBlanks.rows df))
                            (map (WithBlanks.cell_of "Total" (fun r => Total (cells r)))
                               (WithBlanks.rows df))))))
                (filled_total df col)).
  { unfold filled_total. apply groupby_within_rounding. apply keyed_dropna_amounts. }
  split; [exact H|].
  intros Hfilled. unfold filled_total in H.
  rewrite (filter_filled df col Hfilled) in H. now rewrite Htotal.
Qed.

(** C1, as the code has it.  The values of each of the six grouped sales
    mappings of [calculate_kpis] add up, within rounding tolerance (half a
    cent for each group and half a cent for the total), to the sum of [Total]
    over the records whose cell in the grouping column is filled, and hence to
    [total_sales] whenever no record has a blank cell in that column.  This
    holds for every record collection, the non-empty ones in particular. *)
Theorem grouped_sales_sum_to_filled_total (df : WithBlanks.DataFrame) :
  blank_loaded df ->
  exists k, WithBlanks.calculate_kpis df = Ok k /\
    sums_to_filled_total df "Product line" k (product_sales k) /\
    sums_to_filled_total df "hour" k (hour_sales k) /\
    sums_to_filled_total df "month" k (monthly_sales k) /\
    sums_to_filled_total df "Customer_type" k (customer_type_sales k) /\
    sums_to_filled_total df "Gender" k (gender_sales k) /\
    sums_to_filled_total df "City" k (city_sales k).
Proof.
  intros Hl. pose proof (blank_calculate_kpis df Hl) as H. cbv zeta in H.
  destruct H as (k & Hk & Hs & _ & _ & Hp & Hh & Hm & Hc & Hg & Hy).
  exists k. split; [exact Hk|].
  rewrite Hp, Hh, Hm, Hc, Hg, Hy.
  repeat (split; [now apply grouped_sums_to_filled_total|]).
  now apply grouped_sums_to_filled_total.
Qed.

Lemma grouped_sales_sum_to_filled_total_witness :
  exists k, WithBlanks.calculate_kpis blank_product_line = Ok k /\
    total_sales k = 30 /\
    product_sales k = [("Health and beauty", 20)] /\
    filled_total blank_product_line "Product line" = 20 /\
    within_rounding (product_sales k) (filled_total blank_product_line "Product line") /\
    within_rounding (city_sales k) (total_sales k).
Proof.
  destruct (grouped_sales_sum_to_filled_total blank_product_line eq_refl)
    as (k & Hk & (Hproduct & _) & _ & _ & _ & _ & (_ & Hcity)).
  exists k. split; [exact Hk|].
  assert (Hs : total_sales k = 30) by (injection Hk as <-; reflexivity).
  assert (Hp : product_sales k = [("Health and beauty", 20)])
    by (injection Hk as <-; reflexivity).
  split; [exact Hs|]. split; [exact Hp|]. split; [reflexivity|].
  split; [exact Hproduct|]. apply Hcity.
  intros r Hr. cbn in Hr. destruct Hr as [<- | [<- | []]]; reflexivity.
Defined.

(** C1, as it is worded, fails on a record with a blank product line: the
    record is left out of [product_sales] and counted in [total_sales], so the
    mapping adds up to 20.00 against a total of 30.00. *)
Lemma grouped_sales_miss_blank_keys :
  blank_loaded blank_product_line /\
  WithBlanks.rows blank_product_line <> [] /\
  (exists k, WithBlanks.calculate_kpis blank_product_line = Ok k) /\
  forall k, WithBlanks.calculate_kpis blank_product_line = Ok k ->
    sum (values (product_sales k)) = 20 /\
    total_sales k = 30 /\
    ~ within_rounding (product_sales k) (total_sales k).
Proof.
  split; [reflexivity|]. split; [discriminate|]. split; [eexists; reflexivity|].
  intros k Hk. injection Hk as <-.
  split; [reflexivity|]. split; [reflexivity|].
  unfold within_rounding. vm_compute. intros H. apply H. reflexivity.
Qed.

(** *** Frames without blank cell *)

Lemma dropna_map_Some {A : Type} (l : list A) : dropna (map Some l) = l.
Proof. induction l; cbn; congruence. Qed.

Lemma keyed_dropna_map_Some {K : Type} (ks : list K) (vs : list Q) :
  keyed_dropna (combine (map Some ks) (map Some vs)) = combine ks vs.
Proof.
  revert vs. induction ks as [|k ks IH]; intros [|v vs]; cbn; try reflexivity.
  now rewrite IH.
Qed.

Lemma mem_cell_eqb_Some (x : string) (seen : list string) :
  mem (cell_eqb String.eqb) (Some x) (map Some seen) = mem String.eqb x seen.
Proof.
  unfold mem. induction seen as [|y t IH]; [reflexivity|].
  cbn [map existsb cell_eqb]. now rewrite IH.
Qed.

Lemma unique_from_map_Some (s seen : list string) :
  unique_from (cell_eqb String.eqb) (map Some seen) (map Some s)
  = map Some (unique_from String.eqb seen s).
Proof.
  revert seen. induction s as [|x t IH]; intros seen; [reflexivity|].
  cbn [map unique_from]. rewrite mem_cell_eqb_Some.
  destruct (mem String.eqb x seen); [apply IH|].
  cbn [map]. f_equal. exact (IH (x :: seen)).
Qed.

Lemma duplicated_from_map_Some (s seen : list string) :
  duplicated_from (cell_eqb String.eqb) (map Some seen) (map Some s)
  = duplicated_from String.eqb seen s.
Proof.
  revert seen. induction s as [|x t IH]; intros seen; [reflexivity|].
  cbn [map duplicated_from]. rewrite mem_cell_eqb_Some. f_equal.
  exact (IH (x :: seen)).
Qed.

Lemma of_frame_getitem {A : Type} (df : DataFrame) (col : string) (cell : Row -> A) :
  WithBlanks.getitem (WithBlanks.of_frame df) col cell
  = (s <- getitem df col cell ;; Ok (map Some s)).
Proof.
  unfold WithBlanks.getitem, getitem, WithBlanks.of_frame.
  cbn [WithBlanks.columns WithBlanks.rows].
  destruct (mem String.eqb col (columns df)); [|reflexivity].
  cbn [Py.bind]. now rewrite !map_map.
Qed.

(** On a frame without blank cell the two readings of [calculate_kpis]
    return the same. *)
Lemma calculate_kpis_of_frame (df : DataFrame) :
  WithBlanks.calculate_kpis (WithBlanks.of_frame df) = calculate_kpis df.
Proof.
  unfold WithBlanks.calculate_kpis, calculate_kpis,
    WithBlanks.sales_by, sales_by,
    WithBlanks.total_customers_of, total_customers_of,
    WithBlanks.repeat_customers_of, repeat_customers_of.
  rewrite !of_frame_getitem. unfold getitem.
  assert (Hlen : WithBlanks.len (WithBlanks.of_frame df) = len df).
  { unfold WithBlanks.len, len, WithBlanks.of_frame. cbn. apply length_map. }
  rewrite Hlen.
  destruct (mem String.eqb "Total" (columns df)); cbn [Py.bind]; [|reflexivity].
  rewrite dropna_map_Some.
  destruct (0 <? len df)%nat; [destruct (truediv _ _)|]; cbn [Py.bind];
    try reflexivity.
  all: repeat match goal with
       | |- context [mem String.eqb ?c (columns ?d)] =>
           destruct (mem String.eqb c (columns d)); cbn [Py.bind]; [|reflexivity]
       end.
  all: rewrite ?dropna_map_Some, ?keyed_dropna_map_Some.
  all: unfold unique, duplicated.
  all: rewrite ?(unique_from_map_Some _ []), ?(duplicated_from_map_Some _ []),
         ?length_map.
  all: reflexivity.
Qed.


